(** * pyetrade.market: the ETrade market-data client

    A shallow embedding of [src/pyetrade/market.py] (class [ETradeMarket])
    and the properties of its request builders and of the option-chain
    aggregator [get_all_option_chains].

    Conventions of the embedding.
    - Python text is a Rocq [string]; [str.upper]/[str.lower] act on the
      ASCII letters (text outside ASCII is not modelled).
    - A dynamically typed argument is a [PyValue]; an argument the
      docstrings type as [str], [bool] or [dt.date] has that type here.
    - A method is a function in the monad [M]: it threads the client object
      and the trace of observable events (HTTP requests, log records) and
      ends in a value or in a raised exception.
    - The collaborators that live outside the repository (the OAuth1
      session's [get], [xmltodict.parse], the response's [json()], the
      builtin [int]) are the variables of [Section Client].
    - [assert] statements are executed (the interpreter runs without
      [-O]). *)

From Stdlib Require Import ZArith NArith List String Ascii Bool Lia.
From Stdlib Require Import DecimalString DecimalN DecimalPos DecimalFacts.
From Stdlib Require Import SpecFloat.
Import ListNotations.

Local Open Scope string_scope.
Local Open Scope Z_scope.

(** ** Python values and exceptions *)

Module Py.

(** The exception classes the module can raise or let through. *)
Inductive PyError : Type :=
| AssertionError
| AttributeError
| TypeError
| ValueError
| OverflowError
| KeyError (key : string)
| HTTPError (status : Z)            (* requests: raise_for_status *)
| RequestException (detail : string) (* requests: the GET itself failed *)
| ParseError (detail : string).      (* ExpatError / JSONDecodeError *)

Inductive Result (A : Type) : Type :=
| Ok (a : A)
| Raise (e : PyError).
Arguments Ok {A} a.
Arguments Raise {A} e.

Definition rbind {A B} (r : Result A) (k : A -> Result B) : Result B :=
  match r with
  | Ok a => k a
  | Raise e => Raise e
  end.

(** The values that reach the module: arguments, and the nested
    mappings and sequences produced by the response decoders. *)
#[local] Unset Elimination Schemes.
Inductive PyValue : Type :=
| PyNone
| PyBool (b : bool)
| PyInt (z : Z)
| PyFloat (f : spec_float)
| PyStr (s : string)
| PyList (l : list PyValue)
| PyDict (d : list (string * PyValue)).
#[local] Set Elimination Schemes.

Fixpoint assoc {V} (k : string) (d : list (string * V)) : option V :=
  match d with
  | [] => None
  | (k', v) :: d' => if String.eqb k k' then Some v else assoc k d'
  end.

(** [v[k]] for a string subscript [k]. *)
Definition getitem (v : PyValue) (k : string) : Result PyValue :=
  match v with
  | PyDict d =>
      match assoc k d with
      | Some x => Ok x
      | None => Raise (KeyError k)
      end
  | _ => Raise TypeError
  end.

Fixpoint chars (s : string) : list PyValue :=
  match s with
  | EmptyString => []
  | String c s' => PyStr (String c EmptyString) :: chars s'
  end.

(** [iter(v)]: what a [for] loop or a comprehension ranges over. *)
Definition iter (v : PyValue) : Result (list PyValue) :=
  match v with
  | PyList l => Ok l
  | PyDict d => Ok (map (fun kv => PyStr (fst kv)) d)
  | PyStr s => Ok (chars s)
  | _ => Raise TypeError
  end.

(** [[f(i) for i in l]]: left to right, the first exception ends it. *)
Fixpoint comprehension {A B} (f : A -> Result B) (l : list A)
  : Result (list B) :=
  match l with
  | [] => Ok []
  | a :: l' =>
      rbind (f a) (fun b =>
      rbind (comprehension f l') (fun bs => Ok (b :: bs)))
  end.

(** *** Text *)

Definition upper_ascii (c : ascii) : ascii :=
  let n := nat_of_ascii c in
  if (andb (Nat.leb 97 n) (Nat.leb n 122)) then ascii_of_nat (n - 32) else c.

Definition lower_ascii (c : ascii) : ascii :=
  let n := nat_of_ascii c in
  if (andb (Nat.leb 65 n) (Nat.leb n 90)) then ascii_of_nat (n + 32) else c.

Fixpoint smap (f : ascii -> ascii) (s : string) : string :=
  match s with
  | EmptyString => EmptyString
  | String c s' => String (f c) (smap f s')
  end.

Definition upper (s : string) : string := smap upper_ascii s.
Definition lower (s : string) : string := smap lower_ascii s.

(** [v.upper()]: only [str] has the attribute. *)
Definition attr_upper (v : PyValue) : Result string :=
  match v with
  | PyStr s => Ok (upper s)
  | _ => Raise AttributeError
  end.

(** [l.append(x)] *)
Definition list_append {A} (l : list A) (x : A) : list A := (l ++ [x])%list.

(** [sep.join(l)] *)
Definition join (sep : string) (l : list string) : string :=
  String.concat sep l.

Definition newline : string := String (ascii_of_nat 10) EmptyString.

(** [str(b)] for a [bool] *)
Definition str_bool (b : bool) : string := if b then "True" else "False".

(** *** Number formatting *)

Definition dec (n : N) : string := NilEmpty.string_of_uint (N.to_uint n).

Fixpoint zeros (n : nat) : string :=
  match n with
  | O => ""
  | S n' => String "0" (zeros n')
  end.

Definition pad0 (width : nat) (s : string) : string :=
  zeros (width - String.length s) ++ s.

(** ["%d" % z] *)
Definition fmt_d (z : Z) : string :=
  if z <? 0 then "-" ++ dec (Z.abs_N z) else dec (Z.abs_N z).

(** ["%0Wd" % z]: the width counts the sign. *)
Definition fmt_0d (width : nat) (z : Z) : string :=
  if z <? 0 then "-" ++ pad0 (width - 1) (dec (Z.abs_N z))
  else pad0 width (dec (Z.abs_N z)).

(** [int(f)] for a float: truncation towards zero. *)
Definition trunc_float (f : spec_float) : Result Z :=
  match f with
  | S754_zero _ => Ok 0
  | S754_infinity _ => Raise OverflowError
  | S754_nan => Raise ValueError
  | S754_finite s m e =>
      let a := match e with
               | Zneg p => Z.pos m / 2 ^ Z.pos p
               | _ => Z.pos m * 2 ^ e
               end in
      Ok (if s then - a else a)
  end.

(** ["%d" % v] *)
Definition percent_d (v : PyValue) : Result string :=
  match v with
  | PyInt z => Ok (fmt_d z)
  | PyBool b => Ok (if b then "1" else "0")
  | PyFloat f => rbind (trunc_float f) (fun z => Ok (fmt_d z))
  | _ => Raise TypeError
  end.

(** [float(z)] for an [int]: the nearest binary64, ties to even. *)
Definition float_of_int (z : Z) : Result spec_float :=
  match binary_normalize 53 1024 z 0 false with
  | S754_infinity _ => Raise OverflowError
  | f => Ok f
  end.

(** The hundredths nearest to [m * 2^e], ties to even. *)
Definition hundredths (m : positive) (e : Z) : Z :=
  match e with
  | Zneg p =>
      let d := 2 ^ Z.pos p in
      let q := (Z.pos m * 100) / d in
      let r := (Z.pos m * 100) mod d in
      match 2 * r ?= d with
      | Lt => q
      | Eq => if Z.even q then q else q + 1
      | Gt => q + 1
      end
  | _ => Z.pos m * 100 * 2 ^ e
  end.

Definition sign_str (s : bool) : string := if s then "-" else "".

(** ["%0.2f" % f] for a float. *)
Definition fmt_2f (f : spec_float) : string :=
  match f with
  | S754_zero s => sign_str s ++ "0.00"
  | S754_infinity s => sign_str s ++ "inf"
  | S754_nan => "nan"
  | S754_finite s m e =>
      let h := hundredths m e in
      sign_str s ++ dec (Z.to_N (h / 100)) ++ "."
                 ++ pad0 2 (dec (Z.to_N (h mod 100)))
  end.

(** ["%0.2f" % v] *)
Definition percent_2f (v : PyValue) : Result string :=
  match v with
  | PyFloat f => Ok (fmt_2f f)
  | PyInt z => rbind (float_of_int z) (fun f => Ok (fmt_2f f))
  | PyBool b => Ok (if b then "1.00" else "0.00")
  | _ => Raise TypeError
  end.

(** A float that is a number: neither an infinity nor NaN. *)
Definition finite (f : spec_float) : bool :=
  match f with
  | S754_zero _ | S754_finite _ _ _ => true
  | S754_infinity _ | S754_nan => false
  end.

(** A value ["%0.2f"] formats as a number. *)
Definition finite_number (v : PyValue) : bool :=
  match v with
  | PyFloat f => finite f
  | PyInt _ | PyBool _ => true
  | _ => false
  end.

Definition is_digit (c : ascii) : bool :=
  (Nat.leb 48 (nat_of_ascii c)) && (Nat.leb (nat_of_ascii c) 57).

Fixpoint all_digits (s : string) : bool :=
  match s with
  | EmptyString => true
  | String c s' => is_digit c && all_digits s'
  end.

(** The text before and after the first ["."]. *)
Fixpoint split_dot (s : string) : option (string * string) :=
  match s with
  | EmptyString => None
  | String c s' =>
      if Ascii.eqb c "." then Some (EmptyString, s')
      else match split_dot s' with
           | Some (a, b) => Some (String c a, b)
           | None => None
           end
  end.

(** A decimal numeral with exactly two digits after the point:
    an optional minus sign, one digit or more, a point, two digits. *)
Definition two_decimal_places (s : string) : bool :=
  let body := match s with
              | String "-" s' => s'
              | _ => s
              end in
  match split_dot body with
  | Some (ip, fp) =>
      negb (String.length ip =? 0)%nat && all_digits ip
      && (String.length fp =? 2)%nat && all_digits fp
  | None => false
  end.

(** *** [datetime.date] *)

Record Date : Type := mkDate { year : Z; month : Z; day : Z }.

Definition date_eqb (a b : Date) : bool :=
  (year a =? year b) && (month a =? month b) && (day a =? day b).

Definition is_leap (y : Z) : bool :=
  (y mod 4 =? 0) && (negb (y mod 100 =? 0) || (y mod 400 =? 0)).

Definition days_in_month (y m : Z) : Z :=
  if m =? 2 then (if is_leap y then 29 else 28)
  else if (m =? 4) || (m =? 6) || (m =? 9) || (m =? 11) then 30
  else 31.

(** An int that fits a C [int]. *)
Definition c_int (z : Z) : bool := (- 2 ^ 31 <=? z) && (z <? 2 ^ 31).

(** [dt.date(y, m, d)]: the arguments are read as C ints
    ([OverflowError] when one does not fit), then checked against the
    calendar ([ValueError]). *)
Definition date (y m d : Z) : Result Date :=
  if negb (c_int y && c_int m && c_int d) then Raise OverflowError
  else if negb ((1 <=? y) && (y <=? 9999)) then Raise ValueError
  else if negb ((1 <=? m) && (m <=? 12)) then Raise ValueError
  else if negb ((1 <=? d) && (d <=? days_in_month y m)) then Raise ValueError
  else Ok (mkDate y m d).

(** A date [dt.date] accepts. *)
Definition valid (d : Date) : bool :=
  (1 <=? year d) && (year d <=? 9999)
  && (1 <=? month d) && (month d <=? 12)
  && (1 <=? day d) && (day d <=? days_in_month (year d) (month d)).

(** *** [dict] keyed by dates: insertion-ordered, one entry per key *)

Definition Dict (V : Type) : Type := list (Date * V).

Fixpoint dict_get {V} (k : Date) (d : Dict V) : option V :=
  match d with
  | [] => None
  | (k', v) :: d' => if date_eqb k k' then Some v else dict_get k d'
  end.

(** [d[k] = v] *)
Fixpoint dict_set {V} (k : Date) (v : V) (d : Dict V) : Dict V :=
  match d with
  | [] => [(k, v)]
  | (k', v') :: d' =>
      if date_eqb k k' then (k', v) :: d' else (k', v') :: dict_set k v d'
  end.

Definition keys {V} (d : Dict V) : list Date := map fst d.

End Py.

(** ** The client object, the observable events and the method monad *)

Module Market.
Import Py.

(** [requests_oauthlib.OAuth1Session], as [__init__] constructs it. *)
Record OAuth1Session : Type := mkSession {
  s_client_key : string;
  s_client_secret : string;
  s_resource_owner_key : string;
  s_resource_owner_secret : string;
  signature_type : string
}.

(** The attributes of an [ETradeMarket] instance. *)
Record ETradeMarket : Type := mkMarket {
  client_key : string;
  client_secret : string;
  resource_owner_key : string;
  resource_owner_secret : string;
  dev_environment : bool;
  base_url : string;
  session : OAuth1Session
}.

(** [ETradeMarket.__init__] *)
Definition init (client_key client_secret resource_owner_key
                 resource_owner_secret : string) (dev : bool)
  : ETradeMarket :=
  let suffix := if dev then "apisb" else "api" in
  mkMarket client_key client_secret resource_owner_key resource_owner_secret
           dev
           ("https://" ++ suffix ++ ".etrade.com/v1/market/")
           (mkSession client_key client_secret resource_owner_key
                      resource_owner_secret "AUTH_HEADER").

(** [ETradeMarket.__str__] *)
Definition __str__ (self : ETradeMarket) : string :=
  let ret := ["Use development environment: " ++ str_bool (dev_environment self);
              "base URL: " ++ base_url self] in
  join newline ret.

(** [requests.Response]: what the methods read of it. *)
Record Response : Type := mkResponse { status_code : Z; text : string }.

Inductive Level : Type := DEBUG | WARNING | ERROR.

Inductive LogArg : Type :=
| ArgStr (s : string)
| ArgExc (e : PyError).

(** What a call does that can be seen from outside: the GET requests
    it hands to the session and the records it hands to [LOGGER]
    (message and lazy arguments, as passed). *)
Inductive Event : Type :=
| Request (url : string)
| LogRecord (lvl : Level) (msg : string) (args : list LogArg).

Record State : Type := mkState { self : ETradeMarket; trace : list Event }.

Definition is_request (ev : Event) : option string :=
  match ev with
  | Request url => Some url
  | LogRecord _ _ _ => None
  end.

Definition is_warning (ev : Event) : bool :=
  match ev with
  | LogRecord WARNING _ _ => true
  | _ => false
  end.

Fixpoint requests (t : list Event) : list string :=
  match t with
  | [] => []
  | ev :: t' =>
      match is_request ev with
      | Some url => url :: requests t'
      | None => requests t'
      end
  end.

Definition warnings (t : list Event) : list Event := filter is_warning t.

Definition M (A : Type) : Type := State -> Result A * State.

Definition ret {A} (a : A) : M A := fun st => (Ok a, st).

Definition bind {A B} (m : M A) (k : A -> M B) : M B :=
  fun st =>
    match m st with
    | (Ok a, st') => k a st'
    | (Raise e, st') => (Raise e, st')
    end.

Definition raise {A} (e : PyError) : M A := fun st => (Raise e, st).

Definition lift {A} (r : Result A) : M A := fun st => (r, st).

(** [try: m  except Exception as err: h err] *)
Definition try_except {A} (m : M A) (h : PyError -> M A) : M A :=
  fun st =>
    match m st with
    | (Ok a, st') => (Ok a, st')
    | (Raise e, st') => h e st'
    end.

(** Reading an attribute of [self]. *)
Definition attr {A} (f : ETradeMarket -> A) : M A :=
  fun st => (Ok (f (self st)), st).

Definition emit (ev : Event) : M unit :=
  fun st => (Ok tt, mkState (self st) (trace st ++ [ev])%list).

Definition log (lvl : Level) (msg : string) (args : list LogArg) : M unit :=
  emit (LogRecord lvl msg args).

(** [assert c] *)
Definition assert (c : bool) : M unit :=
  if c then ret tt else raise AssertionError.

Declare Scope py_scope.
Delimit Scope py_scope with py.
Notation "x <- c ;; k" := (bind c (fun x => k))
  (at level 61, c at next level, right associativity) : py_scope.
Notation "c ;;; k" := (bind c (fun _ => k))
  (at level 61, right associativity) : py_scope.
Local Open Scope py_scope.

(** [v in (names..., None)] *)
Definition in_enum (v : PyValue) (names : list string) : bool :=
  match v with
  | PyNone => true
  | PyStr s => existsb (String.eqb s) names
  | _ => false
  end.

(** [v in (True, False, None)], for an argument that is a bool or [None]:
    every such value is in the tuple. *)
Definition in_bool_or_none (v : option bool) : bool := true.

Definition is_none (v : PyValue) : bool :=
  match v with
  | PyNone => true
  | _ => false
  end.

(** The two shapes of the [symbols] argument of [get_quote]. *)
Inductive Symbols : Type :=
| SymList (l : list string)
| SymTuple (l : list string).

Definition items (s : Symbols) : list string :=
  match s with
  | SymList l => l
  | SymTuple l => l
  end.

(** [isinstance(s, list or tuple)]: [list or tuple] is [list]. *)
Definition isinstance_list_or_tuple (s : Symbols) : bool :=
  match s with
  | SymList _ => true
  | SymTuple _ => false
  end.

(** [req.raise_for_status()] *)
Definition raise_for_status (req : Response) : M unit :=
  if (400 <=? status_code req) && (status_code req <? 600)
  then raise (HTTPError (status_code req))
  else ret tt.

Definition detail_flags : list string :=
  ["fundamental"; "intraday"; "options"; "week_52"; "all"; "mf_detail"].
Definition chain_types : list string := ["put"; "call"; "callput"].
Definition option_categories : list string := ["standard"; "all"; "mini"].
Definition price_types : list string := ["atmn"; "all"].

Section Client.

(** [session.get(url)], given the URLs requested before. *)
Variable session_get : OAuth1Session -> list string -> string -> Result Response.
(** [xmltodict.parse(text)] *)
Variable xmltodict_parse : string -> Result PyValue.
(** [req.json()] *)
Variable response_json : Response -> Result PyValue.
(** the builtin [int(v)] *)
Variable int : PyValue -> Result Z.

(** [self.session.get(api_url)] *)
Definition get (api_url : string) : M Response :=
  fun st =>
    (session_get (session (self st)) (requests (trace st)) api_url,
     mkState (self st) (trace st ++ [Request api_url])%list).

(** [look_up_product(self, search_str, resp_format="xml")] *)
Definition look_up_product (search_str resp_format : string) : M PyValue :=
  base <- attr base_url ;;
  let api_url :=
    base ++ "lookup/" ++
    (if (lower resp_format =? "xml")%string then search_str
     else search_str ++ ".json") in
  log DEBUG api_url [] ;;;
  req <- get api_url ;;
  raise_for_status req ;;;
  log DEBUG (text req) [] ;;;
  if (lower resp_format =? "xml")%string then lift (xmltodict_parse (text req))
  else lift (response_json req).

(** The [args] list of [get_quote] (lines 183-189). *)
Definition quote_args (detail_flag : PyValue)
           (require_earnings_date skip_mini_options_check : option bool)
  : Result (list string) :=
  let args := [] in
  rbind (if negb (is_none detail_flag)
         then rbind (attr_upper detail_flag)
                    (fun u => Ok (list_append args ("detailflag=" ++ u)))
         else Ok args) (fun args =>
  let args := match require_earnings_date with
              | Some true => list_append args "requireEarningsDate=true"
              | _ => args
              end in
  let args := match skip_mini_options_check with
              | Some b => list_append args ("skipMiniOptionsCheck=" ++ str_bool b)
              | None => args
              end in
  Ok args).

(** [get_quote(self, symbols, detail_flag=None, require_earnings_date=None,
    skip_mini_options_check=None, resp_format="xml")] *)
Definition get_quote (symbols : Symbols) (detail_flag : PyValue)
           (require_earnings_date skip_mini_options_check : option bool)
           (resp_format : string) : M PyValue :=
  assert (in_enum detail_flag detail_flags) ;;;
  assert (in_bool_or_none require_earnings_date) ;;;
  assert (in_bool_or_none skip_mini_options_check) ;;;
  assert (isinstance_list_or_tuple symbols) ;;;
  (if (25 <? List.length (items symbols))%nat
   then log WARNING
            ("get_quote asked for "
               ++ fmt_d (Z.of_nat (List.length (items symbols)))
               ++ " requests; only first 25 returned") []
   else ret tt) ;;;
  args <- lift (quote_args detail_flag require_earnings_date
                           skip_mini_options_check) ;;
  base <- attr base_url ;;
  let api_url := base ++ "quote/" ++ join "," (firstn 25 (items symbols)) in
  let api_url := if (lower resp_format =? "json")%string then api_url ++ ".json"
                 else api_url in
  let api_url := if (0 <? List.length args)%nat
                 then api_url ++ "?" ++ join "&" args
                 else api_url in
  log DEBUG api_url [] ;;;
  req <- get api_url ;;
  raise_for_status req ;;;
  log DEBUG (text req) [] ;;;
  if (lower resp_format =? "xml")%string then lift (xmltodict_parse (text req))
  else lift (response_json req).

(** The [args] list of [get_option_chains] (lines 289-306). *)
Definition chain_args (underlier : string) (expiry_date : option Date)
           (skipAdjusted : option bool)
           (chainType strikePriceNear noOfStrikes optionCategory
            priceType : PyValue) : Result (list string) :=
  let args := ["symbol=" ++ underlier] in
  let args :=
    match expiry_date with
    | Some d =>
        list_append args
          ("expiryDay=" ++ fmt_0d 2 (day d) ++
           "&expiryMonth=" ++ fmt_0d 2 (month d) ++
           "&expiryYear=" ++ fmt_0d 4 (year d))
    | None => args
    end in
  rbind (if negb (is_none strikePriceNear)
         then rbind (percent_2f strikePriceNear)
                    (fun p => Ok (list_append args ("strikePriceNear=" ++ p)))
         else Ok args) (fun args =>
  rbind (if negb (is_none chainType)
         then rbind (attr_upper chainType)
                    (fun u => Ok (list_append args ("chainType=" ++ u)))
         else Ok args) (fun args =>
  rbind (if negb (is_none optionCategory)
         then rbind (attr_upper optionCategory)
                    (fun u => Ok (list_append args ("optionCategory=" ++ u)))
         else Ok args) (fun args =>
  rbind (if negb (is_none priceType)
         then rbind (attr_upper priceType)
                    (fun u => Ok (list_append args ("priceType=" ++ u)))
         else Ok args) (fun args =>
  let args :=
    match skipAdjusted with
    | Some b => list_append args ("skipAdjusted=" ++ str_bool b)
    | None => args
    end in
  rbind (if negb (is_none noOfStrikes)
         then rbind (attr_upper noOfStrikes) (fun u =>
              rbind (percent_d (PyStr u))
                    (fun n => Ok (list_append args ("noOfStrikes=" ++ n))))
         else Ok args) (fun args =>
  Ok args))))).

(** [get_option_chains(self, underlier, expiry_date, skipAdjusted=None,
    chainType=None, strikePriceNear=None, noOfStrikes=None,
    optionCategory=None, priceType=None)] *)
Definition get_option_chains (underlier : string) (expiry_date : option Date)
           (skipAdjusted : option bool)
           (chainType strikePriceNear noOfStrikes optionCategory
            priceType : PyValue) : M PyValue :=
  assert (in_enum chainType chain_types) ;;;
  assert (in_enum optionCategory option_categories) ;;;
  assert (in_enum priceType price_types) ;;;
  assert (in_bool_or_none skipAdjusted) ;;;
  args <- lift (chain_args underlier expiry_date skipAdjusted chainType
                           strikePriceNear noOfStrikes optionCategory
                           priceType) ;;
  base <- attr base_url ;;
  let api_url := base ++ "optionchains?" ++ join "&" args in
  req <- get api_url ;;
  raise_for_status req ;;;
  log DEBUG api_url [] ;;;
  log DEBUG (text req) [] ;;;
  lift (xmltodict_parse (text req)).

(** One element of the comprehension of lines 357-362. *)
Definition expiration_date (this_date : PyValue) : Result Date :=
  rbind (getitem this_date "year") (fun y =>
  rbind (int y) (fun y =>
  rbind (getitem this_date "month") (fun m =>
  rbind (int m) (fun m =>
  rbind (getitem this_date "day") (fun d =>
  rbind (int d) (fun d =>
  date y m d)))))).

(** The comprehension of lines 357-362. *)
Definition expiration_dates (q : PyValue) : Result (list Date) :=
  rbind (getitem q "OptionExpireDateResponse") (fun r =>
  rbind (getitem r "ExpirationDate") (fun ds =>
  rbind (iter ds) (fun ds =>
  comprehension expiration_date ds))).

(** [get_option_expire_date(self, underlier)] *)
Definition get_option_expire_date (underlier : string) : M (list Date) :=
  base <- attr base_url ;;
  let api_url :=
    base ++ ("optionexpiredate?symbol=" ++ underlier ++ "&expiryType=ALL") in
  log DEBUG api_url [] ;;;
  req <- get api_url ;;
  raise_for_status req ;;;
  log DEBUG (text req) [] ;;;
  q <- try_except (lift (xmltodict_parse (text req)))
         (fun err =>
            log ERROR ("XML parsing %s text failed" ++ newline ++ "%s")
                [ArgStr underlier; ArgExc err] ;;;
            raise err) ;;
  lift (expiration_dates q).

(** Line 223: [[i['Put'] for i in chains] + [i['Call'] for i in chains]] *)
Definition puts_then_calls (chains : PyValue) : Result (list PyValue) :=
  rbind (iter chains) (fun l =>
  rbind (comprehension (fun i => getitem i "Put") l) (fun puts =>
  rbind (iter chains) (fun l' =>
  rbind (comprehension (fun i => getitem i "Call") l') (fun calls =>
  Ok (puts ++ calls)%list)))).

(** The [for] loop of [get_all_option_chains] (lines 220-223). *)
Fixpoint all_chains_loop (underlier : string) (expiration_dates : list Date)
         (rtn : Dict (list PyValue)) : M (Dict (list PyValue)) :=
  match expiration_dates with
  | [] => ret rtn
  | this_expiry_date :: rest =>
      q <- get_option_chains underlier (Some this_expiry_date)
                             None PyNone PyNone PyNone PyNone PyNone ;;
      r <- lift (getitem q "OptionChainResponse") ;;
      chains <- lift (getitem r "OptionPair") ;;
      entries <- lift (puts_then_calls chains) ;;
      all_chains_loop underlier rest (dict_set this_expiry_date entries rtn)
  end.

(** [get_all_option_chains(self, underlier)] *)
Definition get_all_option_chains (underlier : string)
  : M (Dict (list PyValue)) :=
  expiration_dates <- try_except (get_option_expire_date underlier)
                        (fun e => raise e) ;;
  let rtn := [] in
  all_chains_loop underlier expiration_dates rtn.

End Client.

(** *** The URLs and documents of the option endpoints *)

Definition expire_url (base underlier : string) : string :=
  base ++ "optionexpiredate?symbol=" ++ underlier ++ "&expiryType=ALL".

Definition chain_url (base underlier : string) (d : Date) : string :=
  base ++ "optionchains?symbol=" ++ underlier
       ++ "&expiryDay=" ++ fmt_0d 2 (day d)
       ++ "&expiryMonth=" ++ fmt_0d 2 (month d)
       ++ "&expiryYear=" ++ fmt_0d 4 (year d).

(** The arguments of [chain_args] up to the strike price. *)
Definition args_before_strike (underlier : string) (expiry_date : option Date)
  : list string :=
  ("symbol=" ++ underlier)
    :: match expiry_date with
       | Some d => ["expiryDay=" ++ fmt_0d 2 (day d)
                      ++ "&expiryMonth=" ++ fmt_0d 2 (month d)
                      ++ "&expiryYear=" ++ fmt_0d 4 (year d)]
       | None => []
       end.

(** What the loop body of [get_all_option_chains] makes of a chain
    document [q] (lines 222-223). *)
Definition chain_entries (q : PyValue) : Result (list PyValue) :=
  rbind (getitem q "OptionChainResponse") (fun r =>
  rbind (getitem r "OptionPair") (fun chains =>
  puts_then_calls chains)).

(** A success status, for [raise_for_status]. *)
Definition success (req : Response) : bool :=
  negb ((400 <=? status_code req) && (status_code req <? 600)).

(** The OptionPairs of a chain document, as (Put, Call), when the document
    is the list of pairs the docstring of [get_option_chains] describes. *)
Definition put_call (option_pair : PyValue) : option (PyValue * PyValue) :=
  match getitem option_pair "Put", getitem option_pair "Call" with
  | Ok p, Ok c => Some (p, c)
  | _, _ => None
  end.

Fixpoint put_calls (l : list PyValue) : option (list (PyValue * PyValue)) :=
  match l with
  | [] => Some []
  | option_pair :: l' =>
      match put_call option_pair, put_calls l' with
      | Some pc, Some pcs => Some (pc :: pcs)
      | _, _ => None
      end
  end.

Definition option_pairs (q : PyValue) : option (list (PyValue * PyValue)) :=
  match getitem q "OptionChainResponse" with
  | Ok r =>
      match getitem r "OptionPair" with
      | Ok (PyList l) => put_calls l
      | _ => None
      end
  | Raise _ => None
  end.

(** The server answers the chain request of [underlier] at date [d],
    whatever was requested before, with a success status and a body that
    [parse] decodes into a document satisfying [Q]. *)
Definition chain_served
           (session_get : OAuth1Session -> list string -> string
                          -> Result Response)
           (parse : string -> Result PyValue)
           (me : ETradeMarket) (underlier : string) (d : Date)
           (Q : PyValue -> Prop) : Prop :=
  forall hist,
  exists req q,
    session_get (session me) hist (chain_url (base_url me) underlier d)
    = Ok req /\
    success req = true /\
    parse (text req) = Ok q /\
    Q q.

(** What a method that fetches makes of the session's answer [r]: the
    transport's exception, an [HTTPError] on a failure status, and
    otherwise what [decode] makes of the response. *)
Definition fetched {A} (r : Result Response) (decode : Response -> Result A)
  : Result A :=
  rbind r (fun req =>
    if success req then decode req else Raise (HTTPError (status_code req))).

(** The answer [r] of the session is a failure that surfaces as [e]: the
    transport raised [e], or the status is a failure status and [e] is its
    [HTTPError]. *)
Definition request_fails (r : Result Response) (e : PyError) : Prop :=
  r = Raise e \/
  exists req, r = Ok req /\ success req = false /\ e = HTTPError (status_code req).

(** The node [this_date] of an expiration-date document carries the
    fields of [d], as values [int] converts. *)
Definition date_fields (int : PyValue -> Result Z) (this_date : PyValue)
           (d : Date) : Prop :=
  exists y m dd,
    getitem this_date "year" = Ok y /\ int y = Ok (year d) /\
    getitem this_date "month" = Ok m /\ int m = Ok (month d) /\
    getitem this_date "day" = Ok dd /\ int dd = Ok (day d).

(** A value an enumerated parameter refuses: not [None], not a legal name. *)
Definition illegal (v : PyValue) (names : list string) : Prop :=
  v <> PyNone /\ forall s, In s names -> v <> PyStr s.

(** The URLs of the lookup and quote endpoints (lines 103-106, 191-195). *)
Definition lookup_url (base search_str resp_format : string) : string :=
  base ++ "lookup/" ++
  (if (lower resp_format =? "xml")%string then search_str
   else search_str ++ ".json").

Definition quote_url (base : string) (symbols args : list string)
           (resp_format : string) : string :=
  base ++ "quote/" ++ join "," (firstn 25 symbols)
    ++ (if (lower resp_format =? "json")%string then ".json" else "")
    ++ (if (0 <? List.length args)%nat then "?" ++ join "&" args else "").

(** *** Observations on a run from [st] to [st'] *)

(** The requests issued in between are exactly [urls], in that order. *)
Definition requested (st st' : State) (urls : list string) : Prop :=
  requests (trace st') = (requests (trace st) ++ urls)%list.

(** The warnings logged in between are exactly [ws]. *)
Definition warned (st st' : State) (ws : list Event) : Prop :=
  warnings (trace st') = (warnings (trace st) ++ ws)%list.

(** The requests of a run all lie under the client's base URL. *)
Definition under_base (st st' : State) : Prop :=
  exists urls,
    requested st st' urls /\
    Forall (fun url => prefix (base_url (self st)) url = true) urls.

(** A computation leaves the client object alone. *)
Definition frames {A} (m : M A) : Prop :=
  forall st, self (snd (m st)) = self st.

End Market.

(** ** A concrete client and server, to run the model on *)

Module Fixture.
Import Py Market.

Definition me : ETradeMarket := init "key" "secret" "token" "token-secret" true.

Definition d1 : Date := mkDate 2024 1 19.
Definition d2 : Date := mkDate 2024 2 16.
Definition d3 : Date := mkDate 2024 3 15.

Definition date_node (y m d : string) : PyValue :=
  PyDict [("year", PyStr y); ("month", PyStr m); ("day", PyStr d)].

Definition dates_doc : PyValue :=
  PyDict [("OptionExpireDateResponse",
           PyDict [("ExpirationDate",
                    PyList [date_node "2024" "1" "19";
                            date_node "2024" "2" "16";
                            date_node "2024" "3" "15"])])].

Definition entry (symbol : string) : PyValue :=
  PyDict [("optionType", PyStr symbol)].

Definition P1 := entry "P1".
Definition C1 := entry "C1".
Definition P2 := entry "P2".
Definition C2 := entry "C2".

Definition chain_doc : PyValue :=
  PyDict [("OptionChainResponse",
           PyDict [("OptionPair",
                    PyList [PyDict [("Call", C1); ("Put", P1)];
                            PyDict [("Call", C2); ("Put", P2)]])])].

Definition quote_doc : PyValue :=
  PyDict [("QuoteResponse", PyDict [("QuoteData", PyList [])])].

(** A decoder that knows three documents. *)
Definition parse (text : string) : Result PyValue :=
  if (text =? "<dates/>")%string then Ok dates_doc
  else if (text =? "<chains/>")%string then Ok chain_doc
  else if (text =? "<quotes/>")%string then Ok quote_doc
  else Raise (ParseError text).

Definition json (req : Response) : Result PyValue := parse (text req).

(** [int] on the decimal strings and on ints. *)
Definition int (v : PyValue) : Result Z :=
  match v with
  | PyInt z => Ok z
  | PyStr s =>
      match NilEmpty.uint_of_string s with
      | Some u => Ok (Z.of_N (N.of_uint u))
      | None => Raise ValueError
      end
  | _ => Raise TypeError
  end.

(** A server that answers every request it knows. *)
Definition server (_ : OAuth1Session) (_ : list string) (url : string)
  : Result Response :=
  if prefix (base_url me ++ "optionexpiredate?") url
  then Ok (mkResponse 200 "<dates/>")
  else if prefix (base_url me ++ "optionchains?") url
  then Ok (mkResponse 200 "<chains/>")
  else if prefix (base_url me ++ "quote/") url
  then Ok (mkResponse 200 "<quotes/>")
  else Ok (mkResponse 200 "<other/>").

(** The same server, failing on the chain of the second date. *)
Definition flaky (s : OAuth1Session) (h : list string) (url : string)
  : Result Response :=
  if (url =? base_url me ++ "optionchains?symbol=AAPL&expiryDay=16&expiryMonth=02&expiryYear=2024")%string
  then Ok (mkResponse 503 "")
  else server s h url.

Definition start : State := mkState me [].

(** 123.4, as the binary64 nearest to it. *)
Definition f123_4 : spec_float := S754_finite false 8683503031523738 (-46).

Fixpoint symbols (n : nat) : list string :=
  match n with
  | O => []
  | S n' => ("S" ++ dec (N.of_nat n)) :: symbols n'
  end.

End Fixture.

(** ** Properties *)

Module Properties.
Import Py Market.
Local Open Scope py_scope.

(** *** Text and traces *)

Lemma append_assoc (a b c : string) : (a ++ b) ++ c = a ++ (b ++ c).
Proof.
  induction a as [|x a IH]; simpl; [reflexivity | now rewrite IH].
Qed.

Lemma append_empty_r (a : string) : a ++ "" = a.
Proof.
  induction a as [|x a IH]; simpl; [reflexivity | now rewrite IH].
Qed.

Lemma requests_app (t u : list Event) :
  requests (t ++ u) = (requests t ++ requests u)%list.
Proof.
  induction t as [|ev t IH]; simpl; [reflexivity|].
  destruct (is_request ev); simpl; now rewrite IH.
Qed.

Lemma warnings_app (t u : list Event) :
  warnings (t ++ u) = (warnings t ++ warnings u)%list.
Proof. apply filter_app. Qed.

(** *** The frame of a computation *)

Lemma frames_ret {A} (a : A) : frames (ret a).
Proof. intro st; reflexivity. Qed.

Lemma frames_raise {A} (e : PyError) : frames (@raise A e).
Proof. intro st; reflexivity. Qed.

Lemma frames_lift {A} (r : Result A) : frames (lift r).
Proof. intro st; reflexivity. Qed.

Lemma frames_attr {A} (f : ETradeMarket -> A) : frames (attr f).
Proof. intro st; reflexivity. Qed.

Lemma frames_log lvl msg args : frames (log lvl msg args).
Proof. intro st; reflexivity. Qed.

Lemma frames_assert c : frames (assert c).
Proof. destruct c; intro st; reflexivity. Qed.

Lemma frames_raise_for_status req : frames (raise_for_status req).
Proof.
  unfold raise_for_status.
  destruct (_ && _); intro st; reflexivity.
Qed.

Lemma frames_bind {A B} (m : M A) (k : A -> M B) :
  frames m -> (forall a, frames (k a)) -> frames (bind m k).
Proof.
  intros Hm Hk st. unfold bind.
  specialize (Hm st). destruct (m st) as [[a|e] st']; simpl in *.
  - now rewrite Hk.
  - exact Hm.
Qed.

Lemma frames_try_except {A} (m : M A) (h : PyError -> M A) :
  frames m -> (forall e, frames (h e)) -> frames (try_except m h).
Proof.
  intros Hm Hh st. unfold try_except.
  specialize (Hm st). destruct (m st) as [[a|e] st']; simpl in *.
  - exact Hm.
  - now rewrite Hh.
Qed.

Lemma frames_if {A} (c : bool) (m1 m2 : M A) :
  frames m1 -> frames m2 -> frames (if c then m1 else m2).
Proof. destruct c; auto. Qed.

Create HintDb frame.
#[local] Hint Resolve frames_ret frames_raise frames_lift frames_attr
  frames_log frames_assert frames_raise_for_status frames_if : frame.

Ltac frame :=
  repeat first
    [ apply frames_bind; [ | intros ? ]
    | apply frames_try_except; [ | intros ? ]
    | solve [ auto with frame ] ].

(** *** Decimal numerals *)

Lemma all_digits_uint (u : Decimal.uint) :
  all_digits (NilEmpty.string_of_uint u) = true.
Proof. induction u; cbn; auto. Qed.

Lemma all_digits_dec (n : N) : all_digits (dec n) = true.
Proof. apply all_digits_uint. Qed.

Lemma dec_nonempty (n : N) : (String.length (dec n) =? 0)%nat = false.
Proof.
  unfold dec. destruct n as [|p]; [reflexivity|].
  cbn [N.to_uint]. pose proof (Unsigned.to_uint_nonnil p) as H.
  destruct (Pos.to_uint p); [congruence | reflexivity ..].
Qed.

Lemma all_digits_app (a b : string) :
  all_digits (a ++ b) = all_digits a && all_digits b.
Proof.
  induction a as [|c a IH]; cbn; [reflexivity|].
  now rewrite IH, andb_assoc.
Qed.

Lemma digit_not_point (c : ascii) : is_digit c = true -> Ascii.eqb c "." = false.
Proof.
  destruct c as [[] [] [] [] [] [] [] []]; cbv; intros; congruence.
Qed.

Lemma split_dot_digits (ip fp : string) :
  all_digits ip = true -> split_dot (ip ++ String "." fp) = Some (ip, fp).
Proof.
  induction ip as [|c ip IH]; cbn [append split_dot all_digits];
    [reflexivity|].
  intros H. apply andb_prop in H. destruct H as [Hc Hip].
  now rewrite (digit_not_point c Hc), (IH Hip).
Qed.

(** A numeral that starts with a digit carries no sign to strip. *)
Lemma unsigned_numeral (ip rest : string) :
  all_digits ip = true -> (String.length ip =? 0)%nat = false ->
  two_decimal_places (ip ++ rest)
  = match split_dot (ip ++ rest) with
    | Some (a, b) =>
        negb (String.length a =? 0)%nat && all_digits a
        && (String.length b =? 2)%nat && all_digits b
    | None => false
    end.
Proof.
  destruct ip as [|c ip]; [discriminate|]. cbn [all_digits]. intros H _.
  apply andb_prop in H. destruct H as [Hc _]. unfold two_decimal_places.
  cbn [append].
  destruct c as [[] [] [] [] [] [] [] []]; try reflexivity; discriminate.
Qed.

Lemma two_digits (n : N) :
  (n < 100)%N ->
  (String.length (pad0 2 (dec n)) =? 2)%nat && all_digits (pad0 2 (dec n))
  = true.
Proof.
  intros H.
  assert (All : forallb (fun k => let t := pad0 2 (dec (N.of_nat k)) in
                                  (String.length t =? 2)%nat && all_digits t)
                        (seq 0 100) = true) by (vm_compute; reflexivity).
  rewrite forallb_forall in All. specialize (All (N.to_nat n)).
  cbv zeta in All. rewrite N2Nat.id in All. apply All.
  apply in_seq. lia.
Qed.

Lemma two_decimal_places_numeral (s : bool) (n r : N) :
  (r < 100)%N ->
  two_decimal_places (sign_str s ++ dec n ++ "." ++ pad0 2 (dec r)) = true.
Proof.
  intros Hr. pose proof (two_digits r Hr) as H2.
  change ("." ++ pad0 2 (dec r)) with (String "." (pad0 2 (dec r))).
  assert (Body : match split_dot (dec n ++ String "." (pad0 2 (dec r))) with
                 | Some (a, b) =>
                     negb (String.length a =? 0)%nat && all_digits a
                     && (String.length b =? 2)%nat && all_digits b
                 | None => false
                 end = true).
  { rewrite (split_dot_digits _ _ (all_digits_dec n)).
    rewrite dec_nonempty, all_digits_dec. cbn [negb andb]. exact H2. }
  destruct s; cbn [sign_str append].
  - unfold two_decimal_places. exact Body.
  - rewrite unsigned_numeral;
      [exact Body | apply all_digits_dec | apply dec_nonempty].
Qed.

Lemma two_decimal_places_float (f : spec_float) :
  finite f = true -> two_decimal_places (fmt_2f f) = true.
Proof.
  destruct f as [s|s| |s m e]; try discriminate; intros _.
  - destruct s; reflexivity.
  - unfold fmt_2f. apply two_decimal_places_numeral.
    pose proof (Z.mod_pos_bound (hundredths m e) 100 eq_refl). lia.
Qed.

(** *** [float(z)] is a number *)

Lemma shr_1_nonneg (mrs : shr_record) :
  0 <= shr_m mrs -> 0 <= shr_m (shr_1 mrs).
Proof.
  destruct mrs as [m r s]. cbn [shr_m]. intros H. unfold shr_1.
  destruct m as [|[p|p|]|p]; cbn [shr_m]; lia.
Qed.

Lemma iter_shr_1_nonneg (p : positive) :
  forall mrs, 0 <= shr_m mrs -> 0 <= shr_m (iter_pos shr_1 p mrs).
Proof.
  induction p as [p IH|p IH|]; intros mrs H; cbn [iter_pos].
  - apply IH, IH, shr_1_nonneg, H.
  - apply IH, IH, H.
  - apply shr_1_nonneg, H.
Qed.

Lemma shr_fexp_nonneg (m e : Z) (l : location) :
  0 <= m -> 0 <= shr_m (fst (shr_fexp 53 1024 m e l)).
Proof.
  intros H. unfold shr_fexp, shr.
  assert (H0 : 0 <= shr_m (shr_record_of_loc m l)).
  { unfold shr_record_of_loc. destruct l as [|[]]; exact H. }
  destruct (_ - e) as [|p|p]; cbn [fst]; [exact H0 | | exact H0].
  apply iter_shr_1_nonneg, H0.
Qed.

Lemma round_nearest_even_nonneg (m : Z) (l : location) :
  0 <= m -> 0 <= round_nearest_even m l.
Proof.
  intros H. unfold round_nearest_even.
  destruct l as [|[]]; [lia | destruct (Z.even m); lia | lia | lia].
Qed.

Lemma binary_round_aux_finite (sx : bool) (mx ex : Z) (lx : location) :
  0 <= mx ->
  match binary_round_aux 53 1024 sx mx ex lx with
  | S754_nan => False
  | _ => True
  end.
Proof.
  intros H. unfold binary_round_aux.
  pose proof (shr_fexp_nonneg mx ex lx H) as H1.
  destruct (shr_fexp 53 1024 mx ex lx) as [mrs' e']. cbn [fst] in H1.
  pose proof (shr_fexp_nonneg _ e' loc_Exact
                (round_nearest_even_nonneg _ (loc_of_shr_record mrs') H1))
    as H2.
  destruct (shr_fexp 53 1024 _ e' loc_Exact) as [mrs'' e'']. cbn [fst] in H2.
  destruct (shr_m mrs'') as [|p|p]; [exact I | | lia].
  destruct (e'' <=? 1024 - 53); exact I.
Qed.

Lemma float_of_int_finite (z : Z) (f : spec_float) :
  float_of_int z = Ok f -> finite f = true.
Proof.
  unfold float_of_int, binary_normalize, binary_round.
  destruct z as [|p|p].
  - intros E. injection E as <-. reflexivity.
  - destruct (shl_align p 0 _) as [mz ez].
    pose proof (binary_round_aux_finite false (Z.pos mz) ez loc_Exact
                  (Pos2Z.is_nonneg mz)) as H.
    destruct (binary_round_aux 53 1024 false (Z.pos mz) ez loc_Exact);
      intros E; try discriminate; try contradiction;
      injection E as <-; reflexivity.
  - destruct (shl_align p 0 _) as [mz ez].
    pose proof (binary_round_aux_finite true (Z.pos mz) ez loc_Exact
                  (Pos2Z.is_nonneg mz)) as H.
    destruct (binary_round_aux 53 1024 true (Z.pos mz) ez loc_Exact);
      intros E; try discriminate; try contradiction;
      injection E as <-; reflexivity.
Qed.

(** ["%0.2f"] on a number, when it formats at all, writes a numeral with
    two decimal places. *)
Lemma percent_2f_two_decimals (v : PyValue) (p : string) :
  finite_number v = true -> percent_2f v = Ok p ->
  two_decimal_places p = true.
Proof.
  destruct v as [|b|z|f|s|l|d]; cbn [finite_number percent_2f];
    try discriminate; intros Hfin E.
  - injection E as <-. destruct b; reflexivity.
  - destruct (float_of_int z) as [f|e] eqn:Ef; [|discriminate].
    cbn [rbind] in E. injection E as <-.
    apply two_decimal_places_float, (float_of_int_finite z), Ef.
  - injection E as <-. now apply two_decimal_places_float.
Qed.

(** *** Dictionaries keyed by dates *)

Lemma date_eqb_eq (a b : Date) : date_eqb a b = true <-> a = b.
Proof.
  destruct a as [y m d], b as [y' m' d']. unfold date_eqb. cbn [year month day].
  rewrite !andb_true_iff, !Z.eqb_eq. split.
  - intros [[-> ->] ->]. reflexivity.
  - intros E. injection E as -> -> ->. auto.
Qed.

Lemma date_eqb_refl (a : Date) : date_eqb a a = true.
Proof. now apply date_eqb_eq. Qed.

Lemma date_eqb_neq (a b : Date) : a <> b -> date_eqb a b = false.
Proof.
  intros H. destruct (date_eqb a b) eqn:E; [|reflexivity].
  apply date_eqb_eq in E. contradiction.
Qed.

Lemma date_eq_dec (a b : Date) : {a = b} + {a <> b}.
Proof.
  destruct (date_eqb a b) eqn:E.
  - left. now apply date_eqb_eq.
  - right. intros ->. rewrite date_eqb_refl in E. discriminate.
Qed.

Lemma keys_dict_set_new {V} (k : Date) (v : V) (d : Dict V) :
  ~ In k (keys d) -> keys (dict_set k v d) = (keys d ++ [k])%list.
Proof.
  induction d as [|[k' v'] d IH]; cbn; [reflexivity|].
  intros H. rewrite date_eqb_neq by (intros ->; apply H; now left).
  cbn. f_equal. apply IH. intros Hin. apply H. now right.
Qed.

Lemma dict_get_set_same {V} (k : Date) (v : V) (d : Dict V) :
  dict_get k (dict_set k v d) = Some v.
Proof.
  induction d as [|[k' v'] d IH]; cbn.
  - now rewrite date_eqb_refl.
  - destruct (date_eqb k k') eqn:E; cbn; rewrite E; [reflexivity | exact IH].
Qed.

Lemma dict_get_set_other {V} (k k' : Date) (v : V) (d : Dict V) :
  k <> k' -> dict_get k' (dict_set k v d) = dict_get k' d.
Proof.
  intros Hne. induction d as [|[k0 v0] d IH]; cbn.
  - now rewrite date_eqb_neq by congruence.
  - destruct (date_eqb k k0) eqn:E; cbn.
    + apply date_eqb_eq in E. subst k0.
      now rewrite date_eqb_neq by congruence.
    + now rewrite IH.
Qed.

(** *** Chain documents *)

Lemma put_calls_comprehension (l : list PyValue)
      (pcs : list (PyValue * PyValue)) :
  put_calls l = Some pcs ->
  comprehension (fun i => getitem i "Put") l = Ok (map fst pcs) /\
  comprehension (fun i => getitem i "Call") l = Ok (map snd pcs).
Proof.
  revert pcs. induction l as [|x l IH]; intros pcs; cbn [put_calls].
  - intros E. injection E as <-. split; reflexivity.
  - unfold put_call.
    destruct (getitem x "Put") as [p|] eqn:Ep; [|discriminate].
    destruct (getitem x "Call") as [c|] eqn:Ec; [|discriminate].
    destruct (put_calls l) as [pcs'|]; [|discriminate].
    intros E. injection E as <-. destruct (IH pcs' eq_refl) as [IHp IHc].
    cbn [comprehension map fst snd]. rewrite Ep, Ec, IHp, IHc.
    split; reflexivity.
Qed.

Lemma option_pairs_entries (q : PyValue) (pcs : list (PyValue * PyValue)) :
  option_pairs q = Some pcs ->
  chain_entries q = Ok (map fst pcs ++ map snd pcs)%list.
Proof.
  unfold option_pairs, chain_entries.
  destruct (getitem q "OptionChainResponse") as [r|]; [|discriminate].
  cbn [rbind].
  destruct (getitem r "OptionPair") as [[| | | | |l|]|]; try discriminate.
  intros E. destruct (put_calls_comprehension l pcs E) as [Hp Hc].
  cbn [rbind]. unfold puts_then_calls. cbn [iter rbind].
  now rewrite Hp, Hc.
Qed.

Section Collaborators.

Variable session_get : OAuth1Session -> list string -> string -> Result Response.
Variable xmltodict_parse : string -> Result PyValue.
Variable response_json : Response -> Result PyValue.
Variable int : PyValue -> Result Z.

Local Abbreviation get := (Market.get session_get).
Local Abbreviation look_up_product :=
  (Market.look_up_product session_get xmltodict_parse response_json).
Local Abbreviation get_quote :=
  (Market.get_quote session_get xmltodict_parse response_json).
Local Abbreviation get_option_chains :=
  (Market.get_option_chains session_get xmltodict_parse).
Local Abbreviation get_option_expire_date :=
  (Market.get_option_expire_date session_get xmltodict_parse int).
Local Abbreviation all_chains_loop :=
  (Market.all_chains_loop session_get xmltodict_parse).
Local Abbreviation get_all_option_chains :=
  (Market.get_all_option_chains session_get xmltodict_parse int).

Lemma frames_get url : frames (get url).
Proof. intro st; reflexivity. Qed.

#[local] Hint Resolve frames_get : frame.

Lemma frames_look_up_product search_str resp_format :
  frames (look_up_product search_str resp_format).
Proof. unfold Market.look_up_product. frame. Qed.

Lemma frames_get_quote symbols detail_flag red smoc resp_format :
  frames (get_quote symbols detail_flag red smoc resp_format).
Proof. unfold Market.get_quote. frame. Qed.

Lemma frames_get_option_chains underlier expiry_date skipAdjusted chainType
      strikePriceNear noOfStrikes optionCategory priceType :
  frames (get_option_chains underlier expiry_date skipAdjusted chainType
            strikePriceNear noOfStrikes optionCategory priceType).
Proof. unfold Market.get_option_chains. frame. Qed.

Lemma frames_get_option_expire_date underlier :
  frames (get_option_expire_date underlier).
Proof. unfold Market.get_option_expire_date. frame. Qed.

Lemma frames_all_chains_loop underlier dates :
  forall rtn, frames (all_chains_loop underlier dates rtn).
Proof.
  induction dates as [|d dates IH]; intro rtn; simpl.
  - apply frames_ret.
  - apply frames_bind; [apply frames_get_option_chains | intros q].
    frame.
Qed.

Lemma frames_get_all_option_chains underlier :
  frames (get_all_option_chains underlier).
Proof.
  unfold Market.get_all_option_chains.
  apply frames_bind; [ | intros dates; apply frames_all_chains_loop ].
  apply frames_try_except;
    [ apply frames_get_option_expire_date | intros e; apply frames_raise ].
Qed.

(** C10.  Every operation of the client only reads the client object:
    whatever the arguments, the state of the network and the outcome
    (a value or an exception), the constructor-set attributes, the session
    among them, are after the call what they were before it. *)
Theorem client_attributes_only_read (st : State) :
  (forall search_str resp_format,
      self (snd (look_up_product search_str resp_format st)) = self st) /\
  (forall symbols detail_flag red smoc resp_format,
      self (snd (get_quote symbols detail_flag red smoc resp_format st))
      = self st) /\
  (forall underlier expiry_date skipAdjusted chainType strikePriceNear
          noOfStrikes optionCategory priceType,
      self (snd (get_option_chains underlier expiry_date skipAdjusted
                   chainType strikePriceNear noOfStrikes optionCategory
                   priceType st)) = self st) /\
  (forall underlier,
      self (snd (get_option_expire_date underlier st)) = self st) /\
  (forall underlier,
      self (snd (get_all_option_chains underlier st)) = self st).
Proof.
  repeat split; intros.
  - apply frames_look_up_product.
  - apply frames_get_quote.
  - apply frames_get_option_chains.
  - apply frames_get_option_expire_date.
  - apply frames_get_all_option_chains.
Qed.

Ltac run :=
  cbv beta delta [bind ret raise lift attr log emit assert try_except
                  Market.get raise_for_status in_bool_or_none] in *;
  cbn [fst snd self trace] in *.

Ltac branches :=
  repeat (match goal with
          | |- context [match ?x with _ => _ end] =>
              lazymatch x with
              | context [match _ with _ => _ end] => fail
              | _ => destruct x eqn:?
              end
          end;
          cbn [fst snd self trace] in *).

Ltac trace_requests :=
  unfold requested, warned; cbn [fst snd self trace];
  repeat rewrite ?requests_app, ?warnings_app, <- ?List.app_assoc;
  cbn [requests is_request warnings filter is_warning app];
  rewrite ?List.app_nil_r.

Ltac observe :=
  branches; trace_requests;
  rewrite ?append_assoc, ?append_empty_r; cbn [append];
  rewrite ?append_assoc, ?append_empty_r; reflexivity.

(** C9.  [look_up_product] requests [lookup/{search_str}] under the base
    URL when [resp_format] is any casing of xml, and
    [lookup/{search_str}.json] when it is any casing of json; its whole
    behaviour depends on [resp_format] only through its lower-cased form. *)
Theorem look_up_product_suffix (search_str resp_format : string) (st : State) :
  (lower resp_format = "xml" ->
   requested st (snd (look_up_product search_str resp_format st))
             [base_url (self st) ++ "lookup/" ++ search_str]) /\
  (lower resp_format = "json" ->
   requested st (snd (look_up_product search_str resp_format st))
             [base_url (self st) ++ "lookup/" ++ search_str ++ ".json"]) /\
  (forall other, lower other = lower resp_format ->
   look_up_product search_str other st
   = look_up_product search_str resp_format st).
Proof.
  repeat split.
  - intros E. unfold Market.look_up_product. rewrite E. run.
    cbn [String.eqb Ascii.eqb Bool.eqb]. branches; trace_requests; reflexivity.
  - intros E. unfold Market.look_up_product. rewrite E. run.
    cbn [String.eqb Ascii.eqb Bool.eqb]. branches; trace_requests; reflexivity.
  - intros other E. unfold Market.look_up_product. now rewrite E.
Qed.

(** C8.  [get_option_expire_date] takes the underlier and nothing else; it
    issues one request, to
    [optionexpiredate?symbol={underlier}&expiryType=ALL] under the base
    URL, and whenever that request is answered with a success status its
    outcome is what [xmltodict.parse] makes of the body (the JSON decoder
    is no part of it). *)
Theorem get_option_expire_date_xml_only (underlier : string) (st : State) :
  let api_url :=
    base_url (self st)
      ++ "optionexpiredate?symbol=" ++ underlier ++ "&expiryType=ALL" in
  requested st (snd (get_option_expire_date underlier st)) [api_url] /\
  (forall req,
      session_get (session (self st)) (requests (trace st)) api_url = Ok req ->
      (400 <=? status_code req) && (status_code req <? 600) = false ->
      fst (get_option_expire_date underlier st)
      = rbind (xmltodict_parse (text req)) (expiration_dates int)).
Proof.
  intros api_url. subst api_url. split.
  - unfold Market.get_option_expire_date. run.
    branches; trace_requests; reflexivity.
  - intros req Hget Hstatus. unfold Market.get_option_expire_date. run.
    rewrite requests_app. cbn [requests is_request]. rewrite List.app_nil_r.
    rewrite Hget, Hstatus. cbn [fst snd self trace].
    destruct (xmltodict_parse (text req)); reflexivity.
Qed.

(** *** [get_quote] *)

Lemma in_enum_legal (v : PyValue) (names : list string) :
  in_enum v names = true -> v = PyNone \/ exists s, v = PyStr s /\ In s names.
Proof.
  destruct v; cbn; try discriminate; auto.
  intros H. right. exists s. split; [reflexivity|].
  apply existsb_exists in H. destruct H as [x [Hin Heq]].
  apply String.eqb_eq in Heq. now subst.
Qed.

Lemma in_enum_illegal (v : PyValue) (names : list string) :
  v <> PyNone -> (forall s, In s names -> v <> PyStr s) ->
  in_enum v names = false.
Proof.
  intros Hnone Hnames.
  destruct (in_enum v names) eqn:E; [exfalso | reflexivity].
  apply in_enum_legal in E. destruct E as [E | [s [E Hin]]].
  - now apply Hnone.
  - now apply (Hnames s).
Qed.

Lemma quote_args_total (detail_flag : PyValue) (red smoc : option bool) :
  in_enum detail_flag detail_flags = true ->
  exists args, quote_args detail_flag red smoc = Ok args.
Proof.
  intros H. apply in_enum_legal in H. destruct H as [-> | [s [-> _]]];
    unfold quote_args; cbn; eauto.
Qed.

Lemma firstn_short {A} (n : nat) (l : list A) :
  (List.length l <= n)%nat -> firstn n l = l.
Proof. apply firstn_all2. Qed.

Lemma get_quote_list (l : list string) (detail_flag : PyValue)
        (red smoc : option bool) (resp_format : string) (st : State) :
  in_enum detail_flag detail_flags = true ->
  let st' := snd (get_quote (SymList l) detail_flag red smoc resp_format st) in
  (exists args,
      quote_args detail_flag red smoc = Ok args /\
      requested st st'
        [base_url (self st) ++ "quote/" ++ join "," (firstn 25 l)
           ++ (if (lower resp_format =? "json")%string then ".json" else "")
           ++ (if (0 <? List.length args)%nat
               then "?" ++ join "&" args else "")]) /\
  ((25 < List.length l)%nat ->
   List.length (firstn 25 l) = 25%nat /\
   warned st st'
     [LogRecord WARNING
        ("get_quote asked for " ++ fmt_d (Z.of_nat (List.length l))
           ++ " requests; only first 25 returned") []]) /\
  ((List.length l <= 25)%nat ->
   firstn 25 l = l /\ warned st st' []).
Proof.
  intros Hflag st'.
  destruct (quote_args_total detail_flag red smoc Hflag) as [args Hargs].
  subst st'. unfold Market.get_quote. rewrite Hflag, Hargs.
  cbn [isinstance_list_or_tuple items].
  destruct (25 <? List.length l)%nat eqn:E; run;
    (split; [ exists args; split; [reflexivity|] | split; intros Hlen ]).
  - observe.
  - split; [rewrite length_firstn; lia|]. observe.
  - apply Nat.ltb_lt in E. lia.
  - observe.
  - apply Nat.ltb_ge in E. lia.
  - split; [apply firstn_short; lia|]. observe.
Qed.

(** Given a list of symbols (and a legal [detail_flag], so that the URL
    is built at all), [get_quote] issues one request whose URL carries,
    comma-joined and in their order, the first 25 symbols; with more than
    25 symbols these are 25 and exactly one warning is logged, with at most
    25 they are all the symbols and no warning is logged. *)
Theorem get_quote_first_25 (l : list string) (detail_flag : PyValue)
        (red smoc : option bool) (resp_format : string) (st : State) :
  in_enum detail_flag detail_flags = true ->
  let st' := snd (get_quote (SymList l) detail_flag red smoc resp_format st) in
  (exists args,
      quote_args detail_flag red smoc = Ok args /\
      requested st st'
        [base_url (self st) ++ "quote/" ++ join "," (firstn 25 l)
           ++ (if (lower resp_format =? "json")%string then ".json" else "")
           ++ (if (0 <? List.length args)%nat
               then "?" ++ join "&" args else "")]) /\
  ((25 < List.length l)%nat ->
   List.length (firstn 25 l) = 25%nat /\
   warned st st'
     [LogRecord WARNING
        ("get_quote asked for " ++ fmt_d (Z.of_nat (List.length l))
           ++ " requests; only first 25 returned") []]) /\
  ((List.length l <= 25)%nat ->
   firstn 25 l = l /\ warned st st' []) /\
  join "," ["GOOG"; "AAPL"; "MSFT"] = "GOOG,AAPL,MSFT" /\
  join "," ["GOOG"] = "GOOG".
Proof.
  intros Hflag st'.
  destruct (get_quote_list l detail_flag red smoc resp_format st Hflag)
    as [Hurl [Hmore Hless]].
  repeat split; try assumption; try (now apply Hmore); now apply Hless.
Qed.

(** [get_quote] on a tuple: the [isinstance] assertion refuses it. *)
Lemma get_quote_tuple_refused (l : list string) (detail_flag : PyValue)
      (red smoc : option bool) (resp_format : string) (st : State) :
  fst (get_quote (SymTuple l) detail_flag red smoc resp_format st)
  = Raise AssertionError.
Proof.
  unfold Market.get_quote. run. cbn [isinstance_list_or_tuple].
  destruct (in_enum detail_flag detail_flags); reflexivity.
Qed.

(** C6 (as the code has it).  With a legal [detail_flag] name the query
    string of the request starts with [detailflag=] and the upper-cased
    name; with any value other than [None] that is not one of the six
    names the assertion fails (the module's parameter-validation error)
    before anything is logged, built or requested. *)
Theorem get_quote_detail_flag (red smoc : option bool) (resp_format : string)
        (st : State) :
  (forall l s, In s detail_flags ->
     exists more,
       quote_args (PyStr s) red smoc = Ok (("detailflag=" ++ upper s) :: more) /\
       requested st
         (snd (get_quote (SymList l) (PyStr s) red smoc resp_format st))
         [base_url (self st) ++ "quote/" ++ join "," (firstn 25 l)
            ++ (if (lower resp_format =? "json")%string then ".json" else "")
            ++ "?" ++ join "&" (("detailflag=" ++ upper s) :: more)]) /\
  (forall symbols v,
     v <> PyNone -> (forall s, In s detail_flags -> v <> PyStr s) ->
     get_quote symbols v red smoc resp_format st = (Raise AssertionError, st)) /\
  map upper detail_flags
  = ["FUNDAMENTAL"; "INTRADAY"; "OPTIONS"; "WEEK_52"; "ALL"; "MF_DETAIL"].
Proof.
  split; [ | split; [ | reflexivity ] ].
  - intros l s Hin.
    assert (Hflag : in_enum (PyStr s) detail_flags = true).
    { cbn [in_enum]. apply existsb_exists. exists s. split; [exact Hin|].
      apply String.eqb_refl. }
    assert (Hargs : exists more,
               quote_args (PyStr s) red smoc
               = Ok (("detailflag=" ++ upper s) :: more)).
    { unfold quote_args. cbn [is_none negb attr_upper rbind list_append app].
      destruct red as [[|]|], smoc as [b|]; eexists; reflexivity. }
    destruct Hargs as [more Hargs]. exists more.
    split; [exact Hargs|].
    unfold Market.get_quote. rewrite Hflag, Hargs.
    cbn [isinstance_list_or_tuple items].
    destruct (25 <? List.length l)%nat; run;
      change (0 <? List.length (("detailflag=" ++ upper s) :: more))%nat
        with true; cbv iota; observe.
  - intros symbols v Hnone Hnames.
    unfold Market.get_quote.
    rewrite (in_enum_illegal v detail_flags Hnone Hnames). reflexivity.
Qed.

(** *** [get_option_chains] *)

(** C4 (as the code has it).  With an integer count as [noOfStrikes] and
    the other optional arguments absent, [get_option_chains] raises
    [AttributeError] at [noOfStrikes.upper()]: no URL is built and
    nothing is requested or logged. *)
Theorem no_of_strikes_count_raises (underlier : string)
        (expiry_date : option Date) (count : Z) (st : State) :
  get_option_chains underlier expiry_date None PyNone PyNone (PyInt count)
                    PyNone PyNone st
  = (Raise AttributeError, st).
Proof.
  unfold Market.get_option_chains, chain_args. run.
  destruct expiry_date; reflexivity.
Qed.

(** A count passed as text fails one step later, at ["%d"]. *)
Lemma no_of_strikes_text_raises (underlier : string)
      (expiry_date : option Date) (count : string) (st : State) :
  get_option_chains underlier expiry_date None PyNone PyNone (PyStr count)
                    PyNone PyNone st
  = (Raise TypeError, st).
Proof.
  unfold Market.get_option_chains, chain_args. run.
  destruct expiry_date; reflexivity.
Qed.

Lemma chain_args_strike (underlier : string) (expiry_date : option Date)
      (skipAdjusted : option bool)
      (chainType strikePriceNear optionCategory priceType : PyValue)
      (p : string) :
  finite_number strikePriceNear = true ->
  percent_2f strikePriceNear = Ok p ->
  in_enum chainType chain_types = true ->
  in_enum optionCategory option_categories = true ->
  in_enum priceType price_types = true ->
  exists after,
    chain_args underlier expiry_date skipAdjusted chainType strikePriceNear
               PyNone optionCategory priceType
    = Ok (app (args_before_strike underlier expiry_date)
              (("strikePriceNear=" ++ p) :: after)).
Proof.
  intros Hfin Hp Hct Hoc Hpt.
  assert (Hnone : is_none strikePriceNear = false)
    by (destruct strikePriceNear; try reflexivity; discriminate).
  unfold chain_args, args_before_strike. rewrite Hnone, Hp.
  apply in_enum_legal in Hct, Hoc, Hpt.
  destruct Hct as [-> | [ct [-> _]]], Hoc as [-> | [oc [-> _]]],
           Hpt as [-> | [pt [-> _]]];
    destruct expiry_date, skipAdjusted;
    cbn [negb is_none rbind attr_upper list_append app];
    eexists; reflexivity.
Qed.

(** C7 (as the code has it).  A strike price that is a number (a finite
    float, or an int or bool that ["%0.2f"] can format) is written in the
    query string, after the symbol and the expiry, with exactly two
    decimal places. *)
Theorem strike_price_near_two_decimals (underlier : string)
        (expiry_date : option Date) (skipAdjusted : option bool)
        (chainType strikePriceNear optionCategory priceType : PyValue)
        (p : string) (st : State) :
  finite_number strikePriceNear = true ->
  percent_2f strikePriceNear = Ok p ->
  in_enum chainType chain_types = true ->
  in_enum optionCategory option_categories = true ->
  in_enum priceType price_types = true ->
  two_decimal_places p = true /\
  exists after,
    requested st
      (snd (get_option_chains underlier expiry_date skipAdjusted chainType
              strikePriceNear PyNone optionCategory priceType st))
      [base_url (self st) ++ "optionchains?"
         ++ join "&" (app (args_before_strike underlier expiry_date)
                          (("strikePriceNear=" ++ p) :: after))].
Proof.
  intros Hfin Hp Hct Hoc Hpt.
  split; [exact (percent_2f_two_decimals _ _ Hfin Hp)|].
  destruct (chain_args_strike underlier expiry_date skipAdjusted chainType
              strikePriceNear optionCategory priceType p Hfin Hp Hct Hoc Hpt)
    as [after Hargs].
  exists after. unfold Market.get_option_chains.
  rewrite Hct, Hoc, Hpt, Hargs. run. observe.
Qed.

(** *** [get_all_option_chains] *)

Lemma requested_trans (st st1 st2 : State) (us vs : list string) :
  requested st st1 us -> requested st1 st2 vs ->
  requested st st2 (us ++ vs).
Proof.
  unfold requested. intros H1 H2. now rewrite H2, H1, List.app_assoc.
Qed.

Lemma get_option_expire_date_requested (underlier : string) (st : State) :
  requested st (snd (get_option_expire_date underlier st))
            [expire_url (base_url (self st)) underlier].
Proof.
  unfold Market.get_option_expire_date, expire_url. run. observe.
Qed.

Lemma chain_args_default (underlier : string) (d : Date) :
  chain_args underlier (Some d) None PyNone PyNone PyNone PyNone PyNone
  = Ok (args_before_strike underlier (Some d)).
Proof. reflexivity. Qed.

Lemma default_chain_url (base underlier : string) (d : Date) :
  base ++ "optionchains?" ++ join "&" (args_before_strike underlier (Some d))
  = chain_url base underlier d.
Proof.
  unfold chain_url, args_before_strike, join. cbn [String.concat].
  rewrite ?append_assoc. cbn [append]. rewrite ?append_assoc. reflexivity.
Qed.

(** The call the loop makes, when the server answers it. *)
Lemma get_option_chains_answered (underlier : string) (d : Date) (st : State)
      (req : Response) (q : PyValue) :
  session_get (session (self st)) (requests (trace st))
              (chain_url (base_url (self st)) underlier d) = Ok req ->
  success req = true ->
  xmltodict_parse (text req) = Ok q ->
  exists st1,
    get_option_chains underlier (Some d) None PyNone PyNone PyNone PyNone
                      PyNone st = (Ok q, st1) /\
    self st1 = self st /\
    requested st st1 [chain_url (base_url (self st)) underlier d].
Proof.
  unfold success. intros Hget Hok Hparse. apply negb_true_iff in Hok.
  unfold Market.get_option_chains. rewrite chain_args_default.
  cbn [in_enum]. run.
  rewrite default_chain_url, Hget, Hok, Hparse.
  eexists. split; [reflexivity|].
  split; [reflexivity|]. trace_requests. reflexivity.
Qed.

(** Every call of [get_option_chains] with an expiry date and the
    defaults hands one request to the session, whatever happens to it. *)
Lemma get_option_chains_requested (underlier : string) (d : Date) (st : State) :
  requested st
    (snd (get_option_chains underlier (Some d) None PyNone PyNone PyNone
                            PyNone PyNone st))
    [chain_url (base_url (self st)) underlier d].
Proof.
  unfold Market.get_option_chains. rewrite chain_args_default.
  cbn [in_enum]. run.
  rewrite default_chain_url. branches; trace_requests; reflexivity.
Qed.

(** One turn of the loop. *)
Lemma all_chains_loop_cons (underlier : string) (d : Date) (ds : list Date)
      (rtn : Dict (list PyValue)) (st : State) :
  all_chains_loop underlier (d :: ds) rtn st
  = match get_option_chains underlier (Some d) None PyNone PyNone PyNone
                            PyNone PyNone st with
    | (Ok q, st1) =>
        match chain_entries q with
        | Ok entries =>
            all_chains_loop underlier ds (dict_set d entries rtn) st1
        | Raise e => (Raise e, st1)
        end
    | (Raise e, st1) => (Raise e, st1)
    end.
Proof.
  cbn [Market.all_chains_loop]. unfold bind at 1.
  destruct (get_option_chains _ _ _ _ _ _ _ _ st) as [[q|e] st1];
    [|reflexivity].
  unfold chain_entries, bind, lift.
  destruct (getitem q "OptionChainResponse") as [r|e]; [|reflexivity].
  cbn [rbind].
  destruct (getitem r "OptionPair") as [chains|e]; [|reflexivity].
  cbn [rbind].
  destruct (puts_then_calls chains); reflexivity.
Qed.

(** The loop over [pre ++ rest] is the loop over [pre], then over [rest]. *)
Lemma all_chains_loop_app (underlier : string) (pre rest : list Date) :
  forall rtn st,
    all_chains_loop underlier (pre ++ rest) rtn st
    = match all_chains_loop underlier pre rtn st with
      | (Ok rtn', st') => all_chains_loop underlier rest rtn' st'
      | (Raise e, st') => (Raise e, st')
      end.
Proof.
  induction pre as [|d pre IH]; intros rtn st.
  - reflexivity.
  - rewrite <- app_comm_cons, !all_chains_loop_cons.
    destruct (get_option_chains _ _ _ _ _ _ _ _ st) as [[q|e] st1];
      [|reflexivity].
    destruct (chain_entries q); [apply IH | reflexivity].
Qed.

(** The loop on a server that answers every date: it completes, issues one
    request per date in order, appends the new dates to the keys, and
    stores under each date entries the server's document stands for. *)
Lemma all_chains_loop_served (underlier : string)
      (E : Date -> list PyValue -> Prop) (dates : list Date) :
  forall rtn st,
    (forall d, In d dates ->
       chain_served session_get xmltodict_parse (self st) underlier d
         (fun q => exists es, chain_entries q = Ok es /\ E d es)) ->
    exists rtn' st2,
      all_chains_loop underlier dates rtn st = (Ok rtn', st2) /\
      self st2 = self st /\
      requested st st2 (map (chain_url (base_url (self st)) underlier) dates) /\
      (NoDup (keys rtn ++ dates) -> keys rtn' = (keys rtn ++ dates)%list) /\
      (forall k, ~ In k dates -> dict_get k rtn' = dict_get k rtn) /\
      (forall k, In k dates -> exists es, dict_get k rtn' = Some es /\ E k es).
Proof.
  induction dates as [|d ds IH]; intros rtn st Hserved.
  - exists rtn, st. cbn [Market.all_chains_loop map]. unfold ret.
    repeat split; auto.
    + unfold requested. now rewrite List.app_nil_r.
    + intros _. now rewrite List.app_nil_r.
    + intros k [].
  - destruct (Hserved d (or_introl eq_refl) (requests (trace st)))
      as [req [q [Hget [Hok [Hparse [es [Hes HE]]]]]]].
    destruct (get_option_chains_answered underlier d st req q Hget Hok Hparse)
      as [st1 [Hrun [Hself Hreq]]].
    destruct (IH (dict_set d es rtn) st1) as
        [rtn' [st2 [Hloop [Hself2 [Hreq2 [Hkeys [Hkeep Hnew]]]]]]].
    { intros d' Hin. rewrite Hself. apply Hserved. now right. }
    exists rtn', st2. rewrite all_chains_loop_cons, Hrun, Hes.
    rewrite Hself in Hself2, Hreq2.
    split; [exact Hloop|]. split; [exact Hself2|].
    split; [exact (requested_trans _ _ _ _ _ Hreq Hreq2)|].
    split; [|split].
    + intros Hnd.
      assert (Hfresh : ~ In d (keys rtn)).
      { intros Hin. apply NoDup_remove_2 in Hnd. apply Hnd.
        apply in_or_app. now left. }
      rewrite Hkeys; rewrite (keys_dict_set_new d es rtn Hfresh).
      * now rewrite <- List.app_assoc.
      * now rewrite <- List.app_assoc.
    + intros k Hk. rewrite Hkeep by (intros Hin; apply Hk; now right).
      apply dict_get_set_other. intros ->. apply Hk. now left.
    + intros k Hk. destruct (in_dec date_eq_dec k ds) as [Hin|Hout].
      * now apply Hnew.
      * destruct Hk as [->|Hk]; [|contradiction].
        exists es. rewrite (Hkeep k Hout), dict_get_set_same. now split.
Qed.

Lemma get_all_option_chains_run (underlier : string) (st st1 : State)
      (dates : list Date) :
  get_option_expire_date underlier st = (Ok dates, st1) ->
  get_all_option_chains underlier st = all_chains_loop underlier dates [] st1.
Proof.
  intros H. unfold Market.get_all_option_chains, bind, try_except.
  now rewrite H.
Qed.

Lemma get_option_expire_date_ok (underlier : string) (st st1 : State)
      (dates : list Date) :
  get_option_expire_date underlier st = (Ok dates, st1) ->
  self st1 = self st /\
  requested st st1 [expire_url (base_url (self st)) underlier].
Proof.
  intros H. split.
  - pose proof (frames_get_option_expire_date underlier st) as F.
    now rewrite H in F.
  - pose proof (get_option_expire_date_requested underlier st) as R.
    now rewrite H in R.
Qed.

(** When the expiration-date call returns N distinct dates and the
    server answers the chain request of each of them, whatever was
    requested before, with a document off which the entries can be read
    (its OptionPair a list), [get_all_option_chains] returns a mapping and
    has issued exactly 1 + N requests: the expiration-date URL, then the
    chain URL of each date in the returned order; the keys of the mapping
    are exactly those N dates (in that order, none twice, none missing). *)
Theorem get_all_option_chains_requests_and_keys (underlier : string)
        (st st1 : State) (dates : list Date) (N : nat) :
  get_option_expire_date underlier st = (Ok dates, st1) ->
  NoDup dates ->
  List.length dates = N ->
  (forall d, In d dates ->
     chain_served session_get xmltodict_parse (self st) underlier d
       (fun q => exists entries, chain_entries q = Ok entries)) ->
  exists rtn st2 urls,
    get_all_option_chains underlier st = (Ok rtn, st2) /\
    requested st st2 urls /\
    urls = expire_url (base_url (self st)) underlier
             :: map (chain_url (base_url (self st)) underlier) dates /\
    List.length urls = (1 + N)%nat /\
    keys rtn = dates /\
    List.length (keys rtn) = N /\
    NoDup (keys rtn).
Proof.
  intros Hdates Hnodup Hlen Hserved.
  destruct (get_option_expire_date_ok _ _ _ _ Hdates) as [Hself Hreq].
  destruct (all_chains_loop_served underlier (fun _ _ => True) dates [] st1)
    as [rtn [st2 [Hloop [_ [Hreq2 [Hkeys _]]]]]].
  { intros d Hin. rewrite Hself. intros hist.
    destruct (Hserved d Hin hist) as [req [q [Hget [Hok [Hparse [es Hes]]]]]].
    exists req, q. repeat split; auto. exists es. now split. }
  rewrite Hself in Hreq2. cbn [keys map app] in Hkeys.
  specialize (Hkeys Hnodup).
  exists rtn, st2. eexists.
  rewrite (get_all_option_chains_run _ _ _ _ Hdates), Hloop.
  split; [reflexivity|].
  split; [exact (requested_trans _ _ _ _ _ Hreq Hreq2)|].
  split; [reflexivity|].
  split; [cbn [List.length app]; now rewrite length_map, Hlen|].
  rewrite Hkeys. auto.
Qed.

(** C2.  When the server answers the chain request of each date [d] with
    a document whose OptionPairs are [pairs_of d], as (Put, Call) in the
    vendor's order, the sequence [get_all_option_chains] stores under [d]
    is all the Puts in that order followed by all the Calls in that
    order. *)
Theorem get_all_option_chains_puts_then_calls (underlier : string)
        (st st1 : State) (dates : list Date)
        (pairs_of : Date -> list (PyValue * PyValue)) :
  get_option_expire_date underlier st = (Ok dates, st1) ->
  (forall d, In d dates ->
     chain_served session_get xmltodict_parse (self st) underlier d
       (fun q => option_pairs q = Some (pairs_of d))) ->
  exists rtn st2,
    get_all_option_chains underlier st = (Ok rtn, st2) /\
    forall d, In d dates ->
      dict_get d rtn
      = Some (map fst (pairs_of d) ++ map snd (pairs_of d))%list.
Proof.
  intros Hdates Hserved.
  destruct (get_option_expire_date_ok _ _ _ _ Hdates) as [Hself _].
  destruct (all_chains_loop_served underlier
              (fun d es => es = (map fst (pairs_of d)
                                   ++ map snd (pairs_of d))%list)
              dates [] st1)
    as [rtn [st2 [Hloop [_ [_ [_ [_ Hnew]]]]]]].
  { intros d Hin. rewrite Hself. intros hist.
    destruct (Hserved d Hin hist) as [req [q [Hget [Hok [Hparse Hpairs]]]]].
    exists req, q. repeat split; auto.
    eexists. split; [apply option_pairs_entries, Hpairs | reflexivity]. }
  exists rtn, st2.
  rewrite (get_all_option_chains_run _ _ _ _ Hdates), Hloop.
  split; [reflexivity|].
  intros d Hin. destruct (Hnew d Hin) as [es [Hget ->]]. exact Hget.
Qed.

(** C3.  When the chain fetch of some date raises [e] (in the call of
    [get_option_chains], or in reading the OptionPairs off its document),
    the dates before it having been processed, [get_all_option_chains]
    ends in that same [e], in the state the fetch left: it returns no
    mapping and requests nothing for the dates after it. *)
Theorem get_all_option_chains_propagates (underlier : string)
        (st st1 st' st'' : State) (pre post : list Date) (d : Date)
        (rtn' : Dict (list PyValue)) (e : PyError) :
  get_option_expire_date underlier st = (Ok (pre ++ d :: post)%list, st1) ->
  all_chains_loop underlier pre [] st1 = (Ok rtn', st') ->
  (get_option_chains underlier (Some d) None PyNone PyNone PyNone PyNone
                     PyNone st' = (Raise e, st'')
   \/ exists q,
        get_option_chains underlier (Some d) None PyNone PyNone PyNone PyNone
                          PyNone st' = (Ok q, st'') /\
        chain_entries q = Raise e) ->
  get_all_option_chains underlier st = (Raise e, st'').
Proof.
  intros Hdates Hpre Hfail.
  rewrite (get_all_option_chains_run _ _ _ _ Hdates).
  rewrite all_chains_loop_app, Hpre, all_chains_loop_cons.
  destruct Hfail as [Hfail | [q [Hfetch Hread]]].
  - now rewrite Hfail.
  - now rewrite Hfetch, Hread.
Qed.

End Collaborators.

(** *** The theorems at work on a concrete server *)

Import Fixture.

Lemma fixture_dates :
  Market.get_option_expire_date server parse Fixture.int "AAPL" start
  = (Ok [d1; d2; d3],
     snd (Market.get_option_expire_date server parse Fixture.int "AAPL" start)).
Proof. vm_compute. reflexivity. Qed.

Lemma fixture_dates_distinct : NoDup [d1; d2; d3].
Proof.
  repeat constructor; cbn; intuition discriminate.
Qed.

Lemma fixture_chain_served (d : Date) :
  chain_served server parse me "AAPL" d
    (fun q => option_pairs q = Some [(P1, C1); (P2, C2)]).
Proof.
  intros hist. exists (mkResponse 200 "<chains/>"), chain_doc.
  repeat split; reflexivity.
Qed.

Lemma get_all_option_chains_requests_and_keys_witness :
  exists rtn st2 urls,
    Market.get_all_option_chains server parse Fixture.int "AAPL" start
    = (Ok rtn, st2) /\
    requested start st2 urls /\
    urls = expire_url (base_url me) "AAPL"
             :: map (chain_url (base_url me) "AAPL") [d1; d2; d3] /\
    List.length urls = 4%nat /\
    keys rtn = [d1; d2; d3] /\
    List.length (keys rtn) = 3%nat /\
    NoDup (keys rtn).
Proof.
  apply (get_all_option_chains_requests_and_keys
           server parse Fixture.int "AAPL" start _ [d1; d2; d3] 3
           fixture_dates fixture_dates_distinct eq_refl).
  intros d _ hist.
  destruct (fixture_chain_served d hist) as [req [q [Hget [Hok [Hparse Hq]]]]].
  exists req, q. repeat split; auto.
  eexists. apply option_pairs_entries, Hq.
Defined.

Lemma get_all_option_chains_puts_then_calls_witness :
  exists rtn st2,
    Market.get_all_option_chains server parse Fixture.int "AAPL" start
    = (Ok rtn, st2) /\
    forall d, In d [d1; d2; d3] -> dict_get d rtn = Some [P1; P2; C1; C2].
Proof.
  apply (get_all_option_chains_puts_then_calls
           server parse Fixture.int "AAPL" start _ [d1; d2; d3]
           (fun _ => [(P1, C1); (P2, C2)]) fixture_dates).
  intros d _. apply fixture_chain_served.
Defined.

Lemma flaky_dates :
  Market.get_option_expire_date flaky parse Fixture.int "AAPL" start
  = (Ok ([d1] ++ d2 :: [d3])%list,
     snd (Market.get_option_expire_date flaky parse Fixture.int "AAPL" start)).
Proof. vm_compute. reflexivity. Qed.

Lemma flaky_first_date :
  Market.all_chains_loop flaky parse "AAPL" [d1] []
    (snd (Market.get_option_expire_date flaky parse Fixture.int "AAPL" start))
  = (Ok [(d1, [P1; P2; C1; C2])],
     snd (Market.all_chains_loop flaky parse "AAPL" [d1] []
            (snd (Market.get_option_expire_date flaky parse Fixture.int
                    "AAPL" start)))).
Proof. vm_compute. reflexivity. Qed.

Lemma flaky_second_date :
  fst (Market.get_option_chains flaky parse "AAPL" (Some d2) None PyNone
         PyNone PyNone PyNone PyNone
         (snd (Market.all_chains_loop flaky parse "AAPL" [d1] []
                 (snd (Market.get_option_expire_date flaky parse Fixture.int
                         "AAPL" start)))))
  = Raise (HTTPError 503).
Proof. vm_compute. reflexivity. Qed.

Lemma get_all_option_chains_propagates_witness :
  fst (Market.get_all_option_chains flaky parse Fixture.int "AAPL" start)
  = Raise (HTTPError 503).
Proof.
  erewrite (get_all_option_chains_propagates
              flaky parse Fixture.int "AAPL" start _ _ _ [d1] [d3] d2 _
              (HTTPError 503) flaky_dates flaky_first_date).
  - reflexivity.
  - left. apply injective_projections;
      [exact flaky_second_date | reflexivity].
Defined.

Lemma get_quote_first_25_witness :
  requests (trace (snd (Market.get_quote server parse json
                          (SymList (Fixture.symbols 30)) (PyStr "all") None
                          None "xml" start)))
  = ["https://apisb.etrade.com/v1/market/quote/S30,S29,S28,S27,S26,S25,S24,S23,S22,S21,S20,S19,S18,S17,S16,S15,S14,S13,S12,S11,S10,S9,S8,S7,S6?detailflag=ALL"] /\
  List.length (firstn 25 (Fixture.symbols 30)) = 25%nat /\
  warned start
    (snd (Market.get_quote server parse json (SymList (Fixture.symbols 30))
            (PyStr "all") None None "xml" start))
    [LogRecord WARNING
       "get_quote asked for 30 requests; only first 25 returned" []].
Proof.
  destruct (get_quote_first_25 server parse json (Fixture.symbols 30)
              (PyStr "all") None None "xml" start eq_refl)
    as [[args [Hargs Hurl]] [More _]].
  injection Hargs as <-. split; [exact Hurl|].
  apply More. cbn. lia.
Defined.

Lemma get_quote_detail_flag_witness :
  (exists more,
     requested start
       (snd (Market.get_quote server parse json (SymList ["GOOG"])
               (PyStr "week_52") None None "xml" start))
       [base_url me ++ "quote/" ++ join "," (firstn 25 ["GOOG"])
          ++ "" ++ "?" ++ join "&" (("detailflag=" ++ "WEEK_52") :: more)]) /\
  Market.get_quote server parse json (SymList ["GOOG"]) (PyStr "WEEK_52")
                   None None "xml" start
  = (Raise AssertionError, start).
Proof.
  destruct (get_quote_detail_flag server parse json None None "xml" start)
    as [Legal [Illegal _]].
  split.
  - destruct (Legal ["GOOG"] "week_52") as [more [_ Hreq]].
    + cbn. tauto.
    + exists more. exact Hreq.
  - apply Illegal; [discriminate|].
    intros s Hin. cbn in Hin.
    repeat (destruct Hin as [<-|Hin]; [discriminate|]). destruct Hin.
Defined.

(** [None] is no legal name, and the assertion lets it through: the
    request is made, without a [detailflag] argument. *)
Lemma detail_flag_none_accepted :
  (forall s, In s detail_flags -> PyNone <> PyStr s) /\
  fst (Market.get_quote server parse json (SymList ["GOOG"]) PyNone None None
         "xml" start)
  = Ok quote_doc /\
  requests (trace (snd (Market.get_quote server parse json (SymList ["GOOG"])
                          PyNone None None "xml" start)))
  = ["https://apisb.etrade.com/v1/market/quote/GOOG"].
Proof.
  split; [intros s _; discriminate|].
  split; vm_compute; reflexivity.
Qed.

Lemma strike_price_near_two_decimals_witness :
  percent_2f (PyFloat f123_4) = Ok "123.40" /\
  two_decimal_places "123.40" = true /\
  exists after,
    requested start
      (snd (Market.get_option_chains server parse "AAPL" None None PyNone
              (PyFloat f123_4) PyNone PyNone PyNone start))
      [base_url me ++ "optionchains?"
         ++ join "&" (app (args_before_strike "AAPL" None)
                          (("strikePriceNear=" ++ "123.40") :: after))].
Proof.
  split; [reflexivity|].
  apply (strike_price_near_two_decimals
           server parse "AAPL" None None PyNone (PyFloat f123_4) PyNone PyNone
           "123.40" start eq_refl eq_refl eq_refl eq_refl eq_refl).
Defined.

(** A strike price of [float('inf')] is written as [inf]: a value the
    builder accepts and does not write with two decimal places. *)
Lemma strike_price_near_infinity :
  requests (trace (snd (Market.get_option_chains server parse "AAPL" None None
                          PyNone (PyFloat (S754_infinity false)) PyNone PyNone
                          PyNone start)))
  = ["https://apisb.etrade.com/v1/market/optionchains?symbol=AAPL&strikePriceNear=inf"]
  /\ two_decimal_places "inf" = false.
Proof. split; vm_compute; reflexivity. Qed.

(** The other floats that are no numbers: [-inf] and [nan]. *)
Lemma strike_price_near_not_finite (f : spec_float) :
  finite f = false ->
  (fmt_2f f = "inf" \/ fmt_2f f = "-inf" \/ fmt_2f f = "nan") /\
  two_decimal_places (fmt_2f f) = false /\
  requests (trace (snd (Market.get_option_chains server parse "AAPL" None None
                          PyNone (PyFloat f) PyNone PyNone PyNone start)))
  = ["https://apisb.etrade.com/v1/market/optionchains?symbol=AAPL&strikePriceNear="
       ++ fmt_2f f].
Proof.
  destruct f as [s|[|]| |s m e]; try discriminate; intros _;
    (split; [cbn; tauto | split; vm_compute; reflexivity]).
Qed.

Lemma get_option_expire_date_xml_only_witness :
  fst (Market.get_option_expire_date server parse Fixture.int "AAPL" start)
  = rbind (parse "<dates/>") (expiration_dates Fixture.int).
Proof.
  destruct (get_option_expire_date_xml_only server parse Fixture.int "AAPL"
              start) as [_ Parsed].
  apply (Parsed (mkResponse 200 "<dates/>")); reflexivity.
Defined.

Lemma look_up_product_suffix_witness :
  requested start
    (snd (Market.look_up_product server parse json "goog" "XmL" start))
    [base_url me ++ "lookup/" ++ "goog"] /\
  requested start
    (snd (Market.look_up_product server parse json "goog" "jSoN" start))
    [base_url me ++ "lookup/" ++ "goog" ++ ".json"] /\
  Market.look_up_product server parse json "goog" "JSON" start
  = Market.look_up_product server parse json "goog" "jSoN" start.
Proof.
  split; [|split].
  - apply (proj1 (look_up_product_suffix server parse json "goog" "XmL" start)).
    reflexivity.
  - apply (proj1 (proj2 (look_up_product_suffix server parse json "goog"
                           "jSoN" start))).
    reflexivity.
  - apply (proj2 (proj2 (look_up_product_suffix server parse json "goog"
                           "jSoN" start))).
    reflexivity.
Defined.

End Properties.

(** ** More documents and servers, to run the model on *)

Module Cases.
Import Py Market Fixture.

(** An expiration-date document that lists the first date twice. *)
Definition dates_twice_doc : PyValue :=
  PyDict [("OptionExpireDateResponse",
           PyDict [("ExpirationDate",
                    PyList [date_node "2024" "1" "19";
                            date_node "2024" "2" "16";
                            date_node "2024" "1" "19"])])].

(** An expiration-date document with its one date as a mapping. *)
Definition one_date_doc : PyValue :=
  PyDict [("OptionExpireDateResponse",
           PyDict [("ExpirationDate", date_node "2024" "1" "19")])].

(** A chain document with its one OptionPair as a mapping. *)
Definition one_pair_doc : PyValue :=
  PyDict [("OptionChainResponse",
           PyDict [("OptionPair", PyDict [("Call", C1); ("Put", P1)])])].

Definition parse (text : string) : Result PyValue :=
  if (text =? "<dates-twice/>")%string then Ok dates_twice_doc
  else if (text =? "<one-date/>")%string then Ok one_date_doc
  else if (text =? "<one-pair/>")%string then Ok one_pair_doc
  else Fixture.parse text.

(** A server that answers the two option endpoints with the given bodies
    and status. *)
Definition serving (status : Z) (dates_body chains_body : string)
           (_ : OAuth1Session) (_ : list string) (url : string)
  : Result Response :=
  if prefix (base_url me ++ "optionexpiredate?") url
  then Ok (mkResponse status dates_body)
  else if prefix (base_url me ++ "optionchains?") url
  then Ok (mkResponse status chains_body)
  else Ok (mkResponse status "<other/>").

(** A transport that cannot connect. *)
Definition offline (_ : OAuth1Session) (_ : list string) (_ : string)
  : Result Response :=
  Raise (RequestException "connection refused").

End Cases.

(** ** Further properties of the module *)

Module Coverage.
Import Py Market Properties.
Local Open Scope py_scope.

(** *** Prefixes *)

Lemma prefix_append (a b : string) : prefix a (a ++ b) = true.
Proof.
  induction a as [|c a IH]; cbn; [destruct b; reflexivity|].
  destruct (ascii_dec c c); [exact IH | contradiction].
Qed.

Ltac exec :=
  cbv beta delta [bind ret raise lift attr log emit assert try_except
                  Market.get raise_for_status in_bool_or_none] in *;
  cbn [fst snd self trace] in *.

Ltac cases :=
  repeat (match goal with
          | |- context [match ?x with _ => _ end] =>
              lazymatch x with
              | context [match _ with _ => _ end] => fail
              | _ => destruct x eqn:?
              end
          end;
          cbn [fst snd self trace] in *).

Ltac tidy :=
  unfold requested, warned; cbn [fst snd self trace];
  repeat rewrite ?requests_app, ?warnings_app, <- ?List.app_assoc;
  cbn [requests is_request warnings filter is_warning app];
  rewrite ?List.app_nil_r.

Ltac strings :=
  rewrite ?append_assoc, ?append_empty_r; cbn [append];
  rewrite ?append_assoc, ?append_empty_r.

Ltac no_request :=
  exists []; split; [tidy; reflexivity | constructor].

Ltac one_request :=
  eexists [_]; split;
  [ tidy; reflexivity
  | constructor; [strings; apply prefix_append | constructor] ].

Section Collaborators.

Variable session_get : OAuth1Session -> list string -> string -> Result Response.
Variable xmltodict_parse : string -> Result PyValue.
Variable response_json : Response -> Result PyValue.
Variable int : PyValue -> Result Z.

Local Abbreviation look_up_product :=
  (Market.look_up_product session_get xmltodict_parse response_json).
Local Abbreviation get_quote :=
  (Market.get_quote session_get xmltodict_parse response_json).
Local Abbreviation get_option_chains :=
  (Market.get_option_chains session_get xmltodict_parse).
Local Abbreviation get_option_expire_date :=
  (Market.get_option_expire_date session_get xmltodict_parse int).
Local Abbreviation all_chains_loop :=
  (Market.all_chains_loop session_get xmltodict_parse).
Local Abbreviation get_all_option_chains :=
  (Market.get_all_option_chains session_get xmltodict_parse int).

Lemma under_base_look_up_product search_str resp_format st :
  under_base st (snd (look_up_product search_str resp_format st)).
Proof.
  unfold Market.look_up_product. exec. cases; one_request.
Qed.

Lemma under_base_get_quote symbols detail_flag red smoc resp_format st :
  under_base st (snd (get_quote symbols detail_flag red smoc resp_format st)).
Proof.
  unfold Market.get_quote. exec.
  destruct (in_enum detail_flag detail_flags); [|no_request].
  destruct (isinstance_list_or_tuple symbols); [|no_request].
  destruct (quote_args detail_flag red smoc) as [args|e];
    destruct (25 <? List.length (items symbols))%nat;
    cbn [fst snd self trace]; try no_request; cases; one_request.
Qed.

Lemma under_base_get_option_chains underlier expiry_date skipAdjusted
      chainType strikePriceNear noOfStrikes optionCategory priceType st :
  under_base st
    (snd (get_option_chains underlier expiry_date skipAdjusted chainType
            strikePriceNear noOfStrikes optionCategory priceType st)).
Proof.
  unfold Market.get_option_chains. exec.
  destruct (in_enum chainType chain_types); [|no_request].
  destruct (in_enum optionCategory option_categories); [|no_request].
  destruct (in_enum priceType price_types); [|no_request].
  destruct (chain_args _ _ _ _ _ _ _ _) as [args|e];
    cbn [fst snd self trace]; [|no_request].
  cases; one_request.
Qed.

Lemma under_base_get_option_expire_date underlier st :
  under_base st (snd (get_option_expire_date underlier st)).
Proof.
  unfold Market.get_option_expire_date. exec. cases; one_request.
Qed.

Lemma under_base_trans (st st1 st2 : State) :
  self st1 = self st ->
  under_base st st1 -> under_base st1 st2 -> under_base st st2.
Proof.
  intros Hself [us [Hus Fus]] [vs [Hvs Fvs]]. rewrite Hself in Fvs.
  exists (us ++ vs)%list. split.
  - exact (requested_trans _ _ _ _ _ Hus Hvs).
  - apply Forall_app. now split.
Qed.

Lemma under_base_refl (st : State) : under_base st st.
Proof. no_request. Qed.

Lemma under_base_all_chains_loop underlier dates :
  forall rtn st,
    under_base st (snd (all_chains_loop underlier dates rtn st)).
Proof.
  induction dates as [|d ds IH]; intros rtn st.
  - apply under_base_refl.
  - rewrite all_chains_loop_cons.
    pose proof (under_base_get_option_chains underlier (Some d) None PyNone
                  PyNone PyNone PyNone PyNone st) as Hd.
    pose proof (frames_get_option_chains session_get xmltodict_parse underlier
                  (Some d) None PyNone PyNone PyNone PyNone PyNone st) as Hself.
    destruct (get_option_chains _ _ _ _ _ _ _ _ st) as [[q|e] st1];
      cbn [snd] in *; [|exact Hd].
    destruct (chain_entries q) as [entries|e]; [|exact Hd].
    exact (under_base_trans _ _ _ Hself Hd (IH _ st1)).
Qed.

Lemma under_base_get_all_option_chains underlier st :
  under_base st (snd (get_all_option_chains underlier st)).
Proof.
  unfold Market.get_all_option_chains, bind, try_except.
  pose proof (under_base_get_option_expire_date underlier st) as Hd.
  pose proof (frames_get_option_expire_date session_get xmltodict_parse int
                underlier st) as Hself.
  destruct (get_option_expire_date underlier st) as [[dates|e] st1];
    cbn [snd] in *; [|exact Hd].
  exact (under_base_trans _ _ _ Hself Hd
           (under_base_all_chains_loop underlier dates [] st1)).
Qed.

(** Whatever the arguments and whatever the server does, every URL an
    operation hands to the session starts with the client's base URL. *)
Theorem every_request_under_base_url (st : State) :
  (forall search_str resp_format,
      under_base st (snd (look_up_product search_str resp_format st))) /\
  (forall symbols detail_flag red smoc resp_format,
      under_base st
        (snd (get_quote symbols detail_flag red smoc resp_format st))) /\
  (forall underlier expiry_date skipAdjusted chainType strikePriceNear
          noOfStrikes optionCategory priceType,
      under_base st
        (snd (get_option_chains underlier expiry_date skipAdjusted chainType
                strikePriceNear noOfStrikes optionCategory priceType st))) /\
  (forall underlier,
      under_base st (snd (get_option_expire_date underlier st))) /\
  (forall underlier,
      under_base st (snd (get_all_option_chains underlier st))).
Proof.
  repeat split; intros.
  - apply under_base_look_up_product.
  - apply under_base_get_quote.
  - apply under_base_get_option_chains.
  - apply under_base_get_option_expire_date.
  - apply under_base_get_all_option_chains.
Qed.

(** *** What each method makes of the session's answer *)

Lemma same_history (st : State) (msg : string) :
  requests (trace st ++ [LogRecord DEBUG msg []]) = requests (trace st).
Proof.
  rewrite requests_app. cbn [requests is_request]. apply List.app_nil_r.
Qed.

Lemma look_up_product_outcome search_str resp_format st :
  fst (look_up_product search_str resp_format st)
  = fetched (session_get (session (self st)) (requests (trace st))
               (lookup_url (base_url (self st)) search_str resp_format))
            (fun req =>
               if (lower resp_format =? "xml")%string
               then xmltodict_parse (text req) else response_json req).
Proof.
  unfold Market.look_up_product, lookup_url, fetched, success. exec.
  rewrite same_history.
  destruct (session_get _ _ _) as [req|e]; [|reflexivity].
  cbn [rbind].
  destruct ((400 <=? status_code req) && (status_code req <? 600));
    cbn [negb fst]; [reflexivity|].
  destruct (lower resp_format =? "xml")%string; reflexivity.
Qed.

Lemma get_quote_outcome l detail_flag red smoc resp_format st args :
  in_enum detail_flag detail_flags = true ->
  quote_args detail_flag red smoc = Ok args ->
  let url := quote_url (base_url (self st)) l args resp_format in
  requested st
    (snd (get_quote (SymList l) detail_flag red smoc resp_format st)) [url] /\
  fst (get_quote (SymList l) detail_flag red smoc resp_format st)
  = fetched (session_get (session (self st)) (requests (trace st)) url)
            (fun req =>
               if (lower resp_format =? "xml")%string
               then xmltodict_parse (text req) else response_json req).
Proof.
  intros Hflag Hargs url. subst url.
  assert (Hurl : (if (0 <? List.length args)%nat
                  then (if (lower resp_format =? "json")%string
                        then (base_url (self st) ++ "quote/"
                                ++ join "," (firstn 25 l)) ++ ".json"
                        else base_url (self st) ++ "quote/"
                               ++ join "," (firstn 25 l))
                         ++ "?" ++ join "&" args
                  else (if (lower resp_format =? "json")%string
                        then (base_url (self st) ++ "quote/"
                                ++ join "," (firstn 25 l)) ++ ".json"
                        else base_url (self st) ++ "quote/"
                               ++ join "," (firstn 25 l)))
                 = quote_url (base_url (self st)) l args resp_format).
  { unfold quote_url.
    destruct (0 <? List.length args)%nat,
             (lower resp_format =? "json")%string; strings; reflexivity. }
  unfold Market.get_quote. rewrite Hflag, Hargs.
  cbn [isinstance_list_or_tuple items]. unfold fetched, success.
  destruct (25 <? List.length l)%nat; exec; rewrite Hurl;
    rewrite ?requests_app; cbn [requests is_request];
    rewrite ?List.app_nil_r;
    (destruct (session_get _ _ _) as [req|e];
     [ cbn [rbind];
       destruct ((400 <=? status_code req) && (status_code req <? 600));
       cbn [negb fst snd];
       [ | destruct (lower resp_format =? "xml")%string ]
     | ]);
    (split; [tidy; reflexivity | reflexivity]).
Qed.

Lemma get_option_chains_outcome underlier expiry_date skipAdjusted chainType
      strikePriceNear noOfStrikes optionCategory priceType st args :
  in_enum chainType chain_types = true ->
  in_enum optionCategory option_categories = true ->
  in_enum priceType price_types = true ->
  chain_args underlier expiry_date skipAdjusted chainType strikePriceNear
             noOfStrikes optionCategory priceType = Ok args ->
  let url := base_url (self st) ++ "optionchains?" ++ join "&" args in
  requested st
    (snd (get_option_chains underlier expiry_date skipAdjusted chainType
            strikePriceNear noOfStrikes optionCategory priceType st)) [url] /\
  fst (get_option_chains underlier expiry_date skipAdjusted chainType
         strikePriceNear noOfStrikes optionCategory priceType st)
  = fetched (session_get (session (self st)) (requests (trace st)) url)
            (fun req => xmltodict_parse (text req)).
Proof.
  intros Hct Hoc Hpt Hargs url. subst url.
  unfold Market.get_option_chains. rewrite Hct, Hoc, Hpt, Hargs.
  unfold fetched, success. exec.
  destruct (session_get _ _ _) as [req|e];
    [ cbn [rbind];
      destruct ((400 <=? status_code req) && (status_code req <? 600));
      cbn [negb fst snd]
    | ];
    (split; [tidy; reflexivity | reflexivity]).
Qed.

Lemma get_option_expire_date_outcome underlier st :
  fst (get_option_expire_date underlier st)
  = fetched (session_get (session (self st)) (requests (trace st))
               (expire_url (base_url (self st)) underlier))
            (fun req => rbind (xmltodict_parse (text req))
                              (expiration_dates int)).
Proof.
  unfold Market.get_option_expire_date, expire_url, fetched, success. exec.
  rewrite same_history.
  destruct (session_get _ _ _) as [req|e]; [|reflexivity].
  cbn [rbind].
  destruct ((400 <=? status_code req) && (status_code req <? 600));
    cbn [negb fst]; [reflexivity|].
  destruct (xmltodict_parse (text req)); reflexivity.
Qed.

(** *** Validation *)

(** An illegal [chainType], [optionCategory] or [priceType] stops
    [get_option_chains] at its assertions: [AssertionError], and nothing
    built, requested or logged. *)
Theorem get_option_chains_validates underlier expiry_date skipAdjusted
        chainType strikePriceNear noOfStrikes optionCategory priceType st :
  illegal chainType chain_types \/
  illegal optionCategory option_categories \/
  illegal priceType price_types ->
  get_option_chains underlier expiry_date skipAdjusted chainType
                    strikePriceNear noOfStrikes optionCategory priceType st
  = (Raise AssertionError, st).
Proof.
  intros H. unfold Market.get_option_chains. exec.
  destruct H as [[Hn Hs] | [[Hn Hs] | [Hn Hs]]].
  - now rewrite (in_enum_illegal _ _ Hn Hs).
  - rewrite (in_enum_illegal _ _ Hn Hs).
    destruct (in_enum chainType chain_types); reflexivity.
  - rewrite (in_enum_illegal _ _ Hn Hs).
    destruct (in_enum chainType chain_types),
             (in_enum optionCategory option_categories); reflexivity.
Qed.

(** A tuple of symbols never reaches the network: the [isinstance]
    assertion tests for [list] alone, so [get_quote] raises
    [AssertionError] with nothing logged or requested. *)
Theorem get_quote_tuple_no_request l detail_flag red smoc resp_format st :
  get_quote (SymTuple l) detail_flag red smoc resp_format st
  = (Raise AssertionError, st).
Proof.
  unfold Market.get_quote. exec. cbn [isinstance_list_or_tuple].
  destruct (in_enum detail_flag detail_flags); reflexivity.
Qed.

Lemma chain_args_no_of_strikes underlier expiry_date skipAdjusted chainType
      strikePriceNear noOfStrikes optionCategory priceType :
  noOfStrikes <> PyNone ->
  exists e,
    chain_args underlier expiry_date skipAdjusted chainType strikePriceNear
               noOfStrikes optionCategory priceType = Raise e.
Proof.
  intros Hn. unfold chain_args.
  repeat match goal with
         | |- context [rbind (if ?c then ?a else ?b) _] =>
             lazymatch c with
             | negb (is_none noOfStrikes) => fail
             | _ => destruct (if c then a else b) as [?args|?e];
                    cbn [rbind]; [|eexists; reflexivity]
             end
         end.
  destruct noOfStrikes; try contradiction;
    cbn [is_none negb attr_upper percent_d rbind]; eexists; reflexivity.
Qed.

(** No value of [noOfStrikes] can be sent: with any value but [None], and
    whatever the other arguments, [get_option_chains] raises before it
    requests or logs anything. *)
Theorem no_of_strikes_never_sent underlier expiry_date skipAdjusted chainType
        strikePriceNear noOfStrikes optionCategory priceType st :
  noOfStrikes <> PyNone ->
  exists e,
    get_option_chains underlier expiry_date skipAdjusted chainType
                      strikePriceNear noOfStrikes optionCategory priceType st
    = (Raise e, st).
Proof.
  intros Hn.
  destruct (chain_args_no_of_strikes underlier expiry_date skipAdjusted
              chainType strikePriceNear noOfStrikes optionCategory priceType
              Hn) as [e He].
  unfold Market.get_option_chains. rewrite He. exec.
  destruct (in_enum chainType chain_types); [|eexists; reflexivity].
  destruct (in_enum optionCategory option_categories);
    [|eexists; reflexivity].
  destruct (in_enum priceType price_types); eexists; reflexivity.
Qed.

(** *** The optional arguments of [get_quote] *)

(** The query string of [get_quote] with its three arguments supplied:
    [detailflag], then [requireEarningsDate=true], then
    [skipMiniOptionsCheck] with Python's spelling of the bool (sent for
    [False] too); [require_earnings_date=False] is the same call as
    leaving the argument out. *)
Theorem get_quote_full_query l s smoc resp_format st :
  In s detail_flags ->
  (forall symbols detail_flag skip,
     get_quote symbols detail_flag (Some false) skip resp_format st
     = get_quote symbols detail_flag None skip resp_format st) /\
  requested st
    (snd (get_quote (SymList l) (PyStr s) (Some true) (Some smoc)
                    resp_format st))
    [base_url (self st) ++ "quote/" ++ join "," (firstn 25 l)
       ++ (if (lower resp_format =? "json")%string then ".json" else "")
       ++ "?detailflag=" ++ upper s
       ++ "&requireEarningsDate=true"
       ++ "&skipMiniOptionsCheck=" ++ (if smoc then "True" else "False")].
Proof.
  intros Hin. split; [reflexivity|].
  assert (Hflag : in_enum (PyStr s) detail_flags = true).
  { cbn [in_enum]. apply existsb_exists. exists s. split; [exact Hin|].
    apply String.eqb_refl. }
  destruct (get_quote_outcome l (PyStr s) (Some true) (Some smoc) resp_format
              st _ Hflag eq_refl) as [Hreq _].
  unfold quote_url in Hreq. cbn [List.length Nat.ltb Nat.leb] in Hreq.
  unfold join in *. cbn [String.concat str_bool] in Hreq.
  unfold requested in *. rewrite Hreq.
  destruct smoc; strings; reflexivity.
Qed.

(** *** [resp_format] is not validated *)

(** [look_up_product] treats every format but xml as json. *)
Theorem look_up_product_other_format_is_json search_str resp_format st :
  lower resp_format <> "xml" ->
  look_up_product search_str resp_format st
  = look_up_product search_str "json" st.
Proof.
  intros H. apply String.eqb_neq in H.
  unfold Market.look_up_product. rewrite H. reflexivity.
Qed.

(** [get_quote] with a format that is neither xml nor json requests the
    URL of the XML endpoint (no [.json] suffix) and, on a success status,
    hands the response to the JSON decoder. *)
Theorem get_quote_other_format l detail_flag red smoc resp_format st args :
  in_enum detail_flag detail_flags = true ->
  quote_args detail_flag red smoc = Ok args ->
  lower resp_format <> "xml" ->
  lower resp_format <> "json" ->
  let url := quote_url (base_url (self st)) l args "xml" in
  requested st
    (snd (get_quote (SymList l) detail_flag red smoc resp_format st)) [url] /\
  forall req,
    session_get (session (self st)) (requests (trace st)) url = Ok req ->
    success req = true ->
    fst (get_quote (SymList l) detail_flag red smoc resp_format st)
    = response_json req.
Proof.
  intros Hflag Hargs Hx Hj url.
  apply String.eqb_neq in Hx, Hj.
  destruct (get_quote_outcome l detail_flag red smoc resp_format st args
              Hflag Hargs) as [Hreq Hout].
  assert (Hurl : quote_url (base_url (self st)) l args resp_format = url).
  { unfold url, quote_url. rewrite Hj. reflexivity. }
  rewrite Hurl in Hreq, Hout. split; [exact Hreq|].
  intros req Hget Hok. rewrite Hout, Hget. unfold fetched. cbn [rbind].
  now rewrite Hok, Hx.
Qed.

(** *** Failed requests *)

Lemma fetched_fails {A} (r : Result Response) (e : PyError)
      (decode : Response -> Result A) :
  request_fails r e -> fetched r decode = Raise e.
Proof.
  intros [-> | [req [-> [Hs ->]]]]; unfold fetched; cbn [rbind];
    [reflexivity | now rewrite Hs].
Qed.

(** A request that fails, in the transport or by its status, ends the
    operation that made it in that error, the decoders unused, whatever
    the arguments that passed the validation; for the aggregator this is
    the expiration-date request, after which no chain is requested. *)
Theorem failed_request_propagates (st : State) (e : PyError) :
  let answer url :=
    session_get (session (self st)) (requests (trace st)) url in
  (forall search_str resp_format,
     request_fails
       (answer (lookup_url (base_url (self st)) search_str resp_format)) e ->
     fst (look_up_product search_str resp_format st) = Raise e) /\
  (forall l detail_flag red smoc resp_format args,
     in_enum detail_flag detail_flags = true ->
     quote_args detail_flag red smoc = Ok args ->
     request_fails
       (answer (quote_url (base_url (self st)) l args resp_format)) e ->
     fst (get_quote (SymList l) detail_flag red smoc resp_format st)
     = Raise e) /\
  (forall underlier expiry_date skipAdjusted chainType strikePriceNear
          noOfStrikes optionCategory priceType args,
     in_enum chainType chain_types = true ->
     in_enum optionCategory option_categories = true ->
     in_enum priceType price_types = true ->
     chain_args underlier expiry_date skipAdjusted chainType strikePriceNear
                noOfStrikes optionCategory priceType = Ok args ->
     request_fails
       (answer (base_url (self st) ++ "optionchains?" ++ join "&" args)) e ->
     fst (get_option_chains underlier expiry_date skipAdjusted chainType
            strikePriceNear noOfStrikes optionCategory priceType st)
     = Raise e) /\
  (forall underlier,
     request_fails (answer (expire_url (base_url (self st)) underlier)) e ->
     fst (get_option_expire_date underlier st) = Raise e /\
     fst (get_all_option_chains underlier st) = Raise e /\
     requested st (snd (get_all_option_chains underlier st))
               [expire_url (base_url (self st)) underlier]).
Proof.
  intros answer. subst answer. repeat split.
  - intros search_str resp_format H.
    rewrite look_up_product_outcome. now apply fetched_fails.
  - intros l detail_flag red smoc resp_format args Hflag Hargs H.
    destruct (get_quote_outcome l detail_flag red smoc resp_format st args
                Hflag Hargs) as [_ ->].
    now apply fetched_fails.
  - intros underlier expiry_date skipAdjusted chainType strikePriceNear
           noOfStrikes optionCategory priceType args Hct Hoc Hpt Hargs H.
    destruct (get_option_chains_outcome underlier expiry_date skipAdjusted
                chainType strikePriceNear noOfStrikes optionCategory priceType
                st args Hct Hoc Hpt Hargs) as [_ ->].
    now apply fetched_fails.
  - rewrite get_option_expire_date_outcome. now apply fetched_fails.
  - pose proof (get_option_expire_date_outcome underlier st) as Hout.
    rewrite (fetched_fails _ e _ H) in Hout.
    unfold Market.get_all_option_chains, bind, try_except, raise.
    destruct (get_option_expire_date underlier st) as [[dates|e'] st1];
      cbn [fst] in *; [discriminate | now injection Hout as ->].
  - pose proof (get_option_expire_date_outcome underlier st) as Hout.
    rewrite (fetched_fails _ e _ H) in Hout.
    pose proof (get_option_expire_date_requested session_get xmltodict_parse
                  int underlier st) as Hreq.
    unfold Market.get_all_option_chains, bind, try_except, raise.
    destruct (get_option_expire_date underlier st) as [[dates|e'] st1];
      cbn [fst snd] in *; [discriminate | exact Hreq].
Qed.

(** *** Decoding failures of [get_option_expire_date] *)

(** When [xmltodict.parse] raises on the body of a successful response,
    [get_option_expire_date] logs one ERROR record with the underlier and
    the exception as its arguments and raises that same exception; a
    document that parses but does not have the expected shape raises
    without an ERROR record. *)
Theorem get_option_expire_date_parse_failure underlier st req :
  let url := expire_url (base_url (self st)) underlier in
  session_get (session (self st)) (requests (trace st)) url = Ok req ->
  success req = true ->
  (forall e,
     xmltodict_parse (text req) = Raise e ->
     get_option_expire_date underlier st
     = (Raise e,
        mkState (self st)
          (trace st ++
             [LogRecord DEBUG url []; Request url;
              LogRecord DEBUG (text req) [];
              LogRecord ERROR ("XML parsing %s text failed" ++ newline ++ "%s")
                        [ArgStr underlier; ArgExc e]])%list)) /\
  (forall q,
     xmltodict_parse (text req) = Ok q ->
     get_option_expire_date underlier st
     = (expiration_dates int q,
        mkState (self st)
          (trace st ++
             [LogRecord DEBUG url []; Request url;
              LogRecord DEBUG (text req) []])%list)).
Proof.
  intros url Hget Hok. subst url. unfold success in Hok.
  apply negb_true_iff in Hok. unfold expire_url in *.
  split; intros x Hparse; unfold Market.get_option_expire_date; exec;
    rewrite same_history, Hget, Hok, Hparse; cbn [fst snd self trace];
    rewrite <- ?List.app_assoc; reflexivity.
Qed.

End Collaborators.

(** *** The dates of [get_option_expire_date] *)

Lemma days_in_month_bound (y m : Z) : days_in_month y m <= 31.
Proof.
  unfold days_in_month.
  destruct (m =? 2); [destruct (is_leap y); lia|].
  destruct ((m =? 4) || (m =? 6) || (m =? 9) || (m =? 11)); lia.
Qed.

Lemma valid_bounds (d : Date) :
  valid d = true ->
  1 <= year d <= 9999 /\ 1 <= month d <= 12 /\ 1 <= day d <= 31.
Proof.
  unfold valid. intros H.
  repeat (apply andb_prop in H; destruct H as [H ?]).
  repeat match goal with E : (_ <=? _) = true |- _ =>
                           apply Z.leb_le in E end.
  pose proof (days_in_month_bound (year d) (month d)). lia.
Qed.

Lemma date_valid (y m d : Z) (dt : Date) :
  date y m d = Ok dt -> dt = mkDate y m d /\ valid dt = true.
Proof.
  unfold date, valid.
  destruct (c_int y && c_int m && c_int d); cbn [negb]; [|discriminate].
  destruct ((1 <=? y) && (y <=? 9999)) eqn:Hy; cbn [negb]; [|discriminate].
  destruct ((1 <=? m) && (m <=? 12)) eqn:Hm; cbn [negb]; [|discriminate].
  destruct ((1 <=? d) && (d <=? days_in_month y m)) eqn:Hd; cbn [negb];
    [|discriminate].
  intros E. injection E as <-. cbn [year month day]. split; [reflexivity|].
  apply andb_prop in Hy, Hm, Hd. destruct Hy as [-> ->], Hm as [-> ->],
    Hd as [-> ->]. reflexivity.
Qed.

Lemma valid_date (d : Date) :
  valid d = true -> date (year d) (month d) (day d) = Ok d.
Proof.
  intros H. destruct (valid_bounds d H) as [Hy [Hm Hd]].
  assert (Hc : c_int (year d) && c_int (month d) && c_int (day d) = true).
  { unfold c_int. rewrite !andb_true_iff, !Z.leb_le, !Z.ltb_lt. lia. }
  unfold date, valid in *. rewrite Hc. cbn [negb].
  repeat (apply andb_prop in H; destruct H as [H ?]).
  repeat match goal with E : (_ <=? _) = true |- _ => rewrite E; clear E end.
  cbn [negb andb]. now destruct d.
Qed.

Lemma comprehension_Forall2 {A B} (f : A -> Result B) (l : list A)
      (bs : list B) :
  comprehension f l = Ok bs <-> Forall2 (fun a b => f a = Ok b) l bs.
Proof.
  revert bs. induction l as [|a l IH]; intros bs; cbn [comprehension].
  - split.
    + intros E. injection E as <-. constructor.
    + intros H. inversion H. reflexivity.
  - split.
    + destruct (f a) as [b|] eqn:Ea; [|discriminate]. cbn [rbind].
      destruct (comprehension f l) as [bs'|]; [|discriminate]. cbn [rbind].
      intros E. injection E as <-. constructor; [exact Ea|].
      now apply IH.
    + intros H. inversion H as [|a' b l' bs' Ea Hrest]; subst.
      rewrite Ea. cbn [rbind]. apply IH in Hrest. now rewrite Hrest.
Qed.

Lemma expiration_date_fields (int : PyValue -> Result Z)
      (this_date : PyValue) (d : Date) :
  Market.expiration_date int this_date = Ok d <->
  date_fields int this_date d /\ valid d = true.
Proof.
  unfold Market.expiration_date, date_fields. split.
  - destruct (getitem this_date "year") as [y|]; [|discriminate].
    cbn [rbind]. destruct (int y) as [yz|] eqn:Ey; [|discriminate].
    cbn [rbind]. destruct (getitem this_date "month") as [m|]; [|discriminate].
    cbn [rbind]. destruct (int m) as [mz|] eqn:Em; [|discriminate].
    cbn [rbind]. destruct (getitem this_date "day") as [dd|]; [|discriminate].
    cbn [rbind]. destruct (int dd) as [dz|] eqn:Ed; [|discriminate].
    cbn [rbind]. intros H. apply date_valid in H. destruct H as [-> Hv].
    split; [|exact Hv]. exists y, m, dd. cbn [year month day]. auto 10.
  - intros [[y [m [dd [Hy [Ey [Hm [Em [Hd Ed]]]]]]]] Hv].
    rewrite Hy. cbn [rbind]. rewrite Ey. cbn [rbind].
    rewrite Hm. cbn [rbind]. rewrite Em. cbn [rbind].
    rewrite Hd. cbn [rbind]. rewrite Ed. cbn [rbind].
    now apply valid_date.
Qed.

Lemma fixed_width_day (z : Z) :
  1 <= z <= 31 ->
  String.length (fmt_0d 2 z) = 2%nat /\ all_digits (fmt_0d 2 z) = true.
Proof.
  intros H.
  assert (All : forallb (fun k => let t := fmt_0d 2 (Z.of_nat k) in
                                  (String.length t =? 2)%nat && all_digits t)
                        (seq 1 31) = true) by (vm_compute; reflexivity).
  rewrite forallb_forall in All. specialize (All (Z.to_nat z)).
  cbv zeta in All. rewrite Z2Nat.id in All by lia.
  assert (Hin : In (Z.to_nat z) (seq 1 31)) by (apply in_seq; lia).
  apply All in Hin. apply andb_prop in Hin. destruct Hin as [Hl Hd].
  apply Nat.eqb_eq in Hl. now split.
Qed.

Lemma fixed_width_year (z : Z) :
  1 <= z <= 9999 ->
  String.length (fmt_0d 4 z) = 4%nat /\ all_digits (fmt_0d 4 z) = true.
Proof.
  intros H.
  assert (All : forallb (fun k => let t := fmt_0d 4 (Z.of_nat k) in
                                  (String.length t =? 4)%nat && all_digits t)
                        (seq 1 (Z.to_nat 9999)) = true)
    by (vm_compute; reflexivity).
  rewrite forallb_forall in All. specialize (All (Z.to_nat z)).
  cbv zeta in All. rewrite Z2Nat.id in All by lia.
  assert (Hin : In (Z.to_nat z) (seq 1 (Z.to_nat 9999)))
    by (apply in_seq; lia).
  apply All in Hin. apply andb_prop in Hin. destruct Hin as [Hl Hd].
  apply Nat.eqb_eq in Hl. now split.
Qed.

Section Dates.

Variable session_get : OAuth1Session -> list string -> string -> Result Response.
Variable xmltodict_parse : string -> Result PyValue.
Variable int : PyValue -> Result Z.

Local Abbreviation get_option_expire_date :=
  (Market.get_option_expire_date session_get xmltodict_parse int).

Lemma get_option_expire_date_decoded underlier st req q :
  session_get (session (self st)) (requests (trace st))
              (expire_url (base_url (self st)) underlier) = Ok req ->
  success req = true ->
  xmltodict_parse (text req) = Ok q ->
  fst (get_option_expire_date underlier st) = expiration_dates int q.
Proof.
  intros Hget Hok Hparse.
  rewrite get_option_expire_date_outcome, Hget. unfold fetched.
  cbn [rbind]. now rewrite Hok, Hparse.
Qed.

(** A document that lists the date nodes of [dates], each with fields
    [int] converts and each a date of the calendar, is returned as
    [dates]: the same dates, in the order of the document. *)
Theorem get_option_expire_date_in_document_order underlier st req q r nodes
        dates :
  session_get (session (self st)) (requests (trace st))
              (expire_url (base_url (self st)) underlier) = Ok req ->
  success req = true ->
  xmltodict_parse (text req) = Ok q ->
  getitem q "OptionExpireDateResponse" = Ok r ->
  getitem r "ExpirationDate" = Ok (PyList nodes) ->
  Forall2 (date_fields int) nodes dates ->
  Forall (fun d => valid d = true) dates ->
  fst (get_option_expire_date underlier st) = Ok dates.
Proof.
  intros Hget Hok Hparse Hr Hnodes Hfields Hvalid.
  rewrite (get_option_expire_date_decoded _ _ _ _ Hget Hok Hparse).
  unfold Market.expiration_dates. rewrite Hr. cbn [rbind].
  rewrite Hnodes. cbn [rbind iter]. apply comprehension_Forall2.
  clear Hnodes. induction Hfields as [|node d nodes dates Hd Hrest IH];
    [constructor|].
  inversion Hvalid; subst. constructor; [|now apply IH].
  apply expiration_date_fields. now split.
Qed.

(** Every date [get_option_expire_date] returns is a date of the calendar
    (the others end the call in [ValueError]), so the chain URL of each
    writes its day and month with two digits and its year with four. *)
Theorem get_option_expire_date_returns_valid_dates underlier st st1 dates :
  get_option_expire_date underlier st = (Ok dates, st1) ->
  Forall (fun d =>
            valid d = true /\
            String.length (fmt_0d 2 (day d)) = 2%nat /\
            all_digits (fmt_0d 2 (day d)) = true /\
            String.length (fmt_0d 2 (month d)) = 2%nat /\
            all_digits (fmt_0d 2 (month d)) = true /\
            String.length (fmt_0d 4 (year d)) = 4%nat /\
            all_digits (fmt_0d 4 (year d)) = true) dates.
Proof.
  intros H.
  pose proof (get_option_expire_date_outcome session_get xmltodict_parse int
                underlier st) as Hout.
  rewrite H in Hout. cbn [fst] in Hout. unfold fetched in Hout.
  destruct (session_get _ _ _) as [req|]; [|discriminate].
  cbn [rbind] in Hout. destruct (success req); [|discriminate].
  destruct (xmltodict_parse (text req)) as [q|]; [|discriminate].
  cbn [rbind] in Hout. unfold Market.expiration_dates in Hout.
  destruct (getitem q "OptionExpireDateResponse") as [r|]; [|discriminate].
  cbn [rbind] in Hout.
  destruct (getitem r "ExpirationDate") as [ds|]; [|discriminate].
  cbn [rbind] in Hout. destruct (iter ds) as [nodes|]; [|discriminate].
  cbn [rbind] in Hout. symmetry in Hout. apply comprehension_Forall2 in Hout.
  clear H. induction Hout as [|node d nodes dates Hd Hrest IH];
    constructor; [|exact IH].
  apply expiration_date_fields in Hd. destruct Hd as [_ Hv].
  destruct (valid_bounds d Hv) as [Hy [Hm Hday]].
  destruct (fixed_width_day (day d) Hday) as [? ?].
  destruct (fixed_width_day (month d)) as [? ?]; [lia|].
  destruct (fixed_width_year (year d) Hy) as [? ?].
  auto 10.
Qed.

(** Documents that are not a list of dates: a missing key raises
    [KeyError] with that key; a single date given as a mapping, not as a
    list of one, raises [TypeError]; an empty list is no date at all. *)
Theorem get_option_expire_date_other_documents underlier st req q :
  session_get (session (self st)) (requests (trace st))
              (expire_url (base_url (self st)) underlier) = Ok req ->
  success req = true ->
  xmltodict_parse (text req) = Ok q ->
  (forall d, q = PyDict d -> assoc "OptionExpireDateResponse" d = None ->
     fst (get_option_expire_date underlier st)
     = Raise (KeyError "OptionExpireDateResponse")) /\
  (forall d, getitem q "OptionExpireDateResponse" = Ok (PyDict d) ->
     assoc "ExpirationDate" d = None ->
     fst (get_option_expire_date underlier st)
     = Raise (KeyError "ExpirationDate")) /\
  (forall r field more,
     getitem q "OptionExpireDateResponse" = Ok r ->
     getitem r "ExpirationDate" = Ok (PyDict (field :: more)) ->
     fst (get_option_expire_date underlier st) = Raise TypeError) /\
  (forall r,
     getitem q "OptionExpireDateResponse" = Ok r ->
     getitem r "ExpirationDate" = Ok (PyList []) ->
     fst (get_option_expire_date underlier st) = Ok []).
Proof.
  intros Hget Hok Hparse.
  rewrite (get_option_expire_date_decoded _ _ _ _ Hget Hok Hparse).
  unfold Market.expiration_dates. repeat split.
  - intros d -> Hd. cbn [getitem]. now rewrite Hd.
  - intros d Hr Hd. rewrite Hr. cbn [rbind getitem]. now rewrite Hd.
  - intros r [k v] more Hr Hd. rewrite Hr. cbn [rbind]. rewrite Hd.
    reflexivity.
  - intros r Hr Hd. rewrite Hr. cbn [rbind]. rewrite Hd. reflexivity.
Qed.

End Dates.

(** *** The mapping of [get_all_option_chains] *)

Lemma keys_dict_set_old {V} (k : Date) (v : V) (d : Dict V) :
  In k (keys d) -> keys (dict_set k v d) = keys d.
Proof.
  induction d as [|[k' v'] d IH]; cbn; [intros []|].
  intros H. destruct (date_eqb k k') eqn:E; cbn; [reflexivity|].
  f_equal. apply IH. destruct H as [H|H]; [|exact H].
  subst k'. rewrite date_eqb_refl in E. discriminate.
Qed.

Lemma keys_dict_set {V} (k : Date) (v : V) (d : Dict V) :
  (NoDup (keys d) -> NoDup (keys (dict_set k v d))) /\
  (forall k', In k' (keys (dict_set k v d)) <-> k' = k \/ In k' (keys d)).
Proof.
  destruct (in_dec date_eq_dec k (keys d)) as [Hin|Hout].
  - rewrite (keys_dict_set_old k v d Hin). split; [auto|].
    intros k'. split; [auto|]. intros [->|H]; assumption.
  - rewrite (keys_dict_set_new k v d Hout). split.
    + intros Hnd. apply NoDup_app; [exact Hnd | repeat constructor; auto |].
      intros x Hx [<-|[]]. contradiction.
    + intros k'. rewrite in_app_iff. cbn. intuition.
Qed.

Section Aggregator.

Variable session_get : OAuth1Session -> list string -> string -> Result Response.
Variable xmltodict_parse : string -> Result PyValue.
Variable int : PyValue -> Result Z.

Local Abbreviation get_option_chains :=
  (Market.get_option_chains session_get xmltodict_parse).
Local Abbreviation get_option_expire_date :=
  (Market.get_option_expire_date session_get xmltodict_parse int).
Local Abbreviation all_chains_loop :=
  (Market.all_chains_loop session_get xmltodict_parse).
Local Abbreviation get_all_option_chains :=
  (Market.get_all_option_chains session_get xmltodict_parse int).

Lemma all_chains_loop_returns underlier dates :
  forall rtn st rtn' st',
    all_chains_loop underlier dates rtn st = (Ok rtn', st') ->
    self st' = self st /\
    requested st st' (map (chain_url (base_url (self st)) underlier) dates) /\
    (NoDup (keys rtn) -> NoDup (keys rtn')) /\
    (forall k, In k (keys rtn') <-> In k (keys rtn) \/ In k dates).
Proof.
  induction dates as [|d ds IH]; intros rtn st rtn' st' H.
  - cbn [Market.all_chains_loop] in H. unfold ret in H.
    injection H as <- <-. repeat split; auto.
    + unfold requested. cbn [map]. now rewrite List.app_nil_r.
    + intros [H|[]]. exact H.
  - rewrite all_chains_loop_cons in H.
    pose proof (get_option_chains_requested session_get xmltodict_parse
                  underlier d st) as Hreq.
    pose proof (frames_get_option_chains session_get xmltodict_parse underlier
                  (Some d) None PyNone PyNone PyNone PyNone PyNone st) as Hself.
    destruct (get_option_chains _ _ _ _ _ _ _ _ st) as [[q|e] st1];
      cbn [snd] in *; [|discriminate].
    destruct (chain_entries q) as [entries|e]; [|discriminate].
    destruct (IH _ _ _ _ H) as [Hself' [Hreq' [Hnd Hkeys]]].
    rewrite Hself in Hself', Hreq'.
    destruct (keys_dict_set d entries rtn) as [Hnd1 Hin1].
    split; [exact Hself'|].
    split; [exact (requested_trans _ _ _ _ _ Hreq Hreq')|].
    split; [auto|].
    intros k. rewrite Hkeys, Hin1. cbn [In]. intuition.
Qed.

(** Whenever [get_all_option_chains] returns a mapping, also for an
    expiration-date answer that repeats a date: no key occurs twice, the
    keys are the dates of that answer, and one chain request was made per
    date listed, in the order listed, after the expiration-date request. *)
Theorem get_all_option_chains_keys underlier st st1 st2 dates rtn :
  get_option_expire_date underlier st = (Ok dates, st1) ->
  get_all_option_chains underlier st = (Ok rtn, st2) ->
  NoDup (keys rtn) /\
  (forall d, In d (keys rtn) <-> In d dates) /\
  requested st st2
    (expire_url (base_url (self st)) underlier
       :: map (chain_url (base_url (self st)) underlier) dates).
Proof.
  intros Hdates Hall.
  rewrite (get_all_option_chains_run session_get xmltodict_parse int
             _ _ _ _ Hdates) in Hall.
  destruct (get_option_expire_date_ok session_get xmltodict_parse int
              _ _ _ _ Hdates) as [Hself Hreq].
  destruct (all_chains_loop_returns _ _ _ _ _ _ Hall)
    as [_ [Hreq' [Hnd Hkeys]]].
  rewrite Hself in Hreq'.
  split; [apply Hnd; constructor|].
  split; [|exact (requested_trans _ _ _ _ _ Hreq Hreq')].
  intros d. rewrite Hkeys. cbn. intuition.
Qed.

(** A chain document whose OptionPair is one mapping, not a list of
    mappings, ends the aggregation in [TypeError]: the loop ranges over
    the keys of the mapping and subscripts a string. *)
Theorem single_option_pair_mapping_raises underlier st st1 d rest req q r
        field more :
  get_option_expire_date underlier st = (Ok (d :: rest), st1) ->
  session_get (session (self st1)) (requests (trace st1))
              (chain_url (base_url (self st1)) underlier d) = Ok req ->
  success req = true ->
  xmltodict_parse (text req) = Ok q ->
  getitem q "OptionChainResponse" = Ok r ->
  getitem r "OptionPair" = Ok (PyDict (field :: more)) ->
  fst (get_all_option_chains underlier st) = Raise TypeError.
Proof.
  intros Hdates Hget Hok Hparse Hr Hpair.
  rewrite (get_all_option_chains_run session_get xmltodict_parse int
             _ _ _ _ Hdates).
  destruct (get_option_chains_answered session_get xmltodict_parse underlier
              d st1 req q Hget Hok Hparse) as [st2 [Hrun _]].
  rewrite all_chains_loop_cons, Hrun.
  unfold chain_entries. rewrite Hr. cbn [rbind]. rewrite Hpair.
  destruct field as [k v]. reflexivity.
Qed.

(** The URL of [get_option_chains] with every argument it can send: the
    arguments in the order symbol, expiry, strike price, chain type,
    option category, price type, skipAdjusted; the names upper-cased and
    the bool in Python's spelling. *)
Theorem get_option_chains_full_url underlier d skipAdjusted chainType
        strikePriceNear optionCategory priceType st :
  In chainType chain_types ->
  In optionCategory option_categories ->
  In priceType price_types ->
  requested st
    (snd (get_option_chains underlier (Some d) (Some skipAdjusted)
            (PyStr chainType) (PyFloat strikePriceNear) PyNone
            (PyStr optionCategory) (PyStr priceType) st))
    [chain_url (base_url (self st)) underlier d
       ++ "&strikePriceNear=" ++ fmt_2f strikePriceNear
       ++ "&chainType=" ++ upper chainType
       ++ "&optionCategory=" ++ upper optionCategory
       ++ "&priceType=" ++ upper priceType
       ++ "&skipAdjusted=" ++ (if skipAdjusted then "True" else "False")].
Proof.
  intros Hct Hoc Hpt.
  assert (Legal : forall s names, In s names -> in_enum (PyStr s) names = true).
  { intros s names Hin. cbn [in_enum]. apply existsb_exists. exists s.
    split; [exact Hin | apply String.eqb_refl]. }
  destruct (get_option_chains_outcome session_get xmltodict_parse underlier
              (Some d) (Some skipAdjusted) (PyStr chainType)
              (PyFloat strikePriceNear) PyNone (PyStr optionCategory)
              (PyStr priceType) st _ (Legal _ _ Hct) (Legal _ _ Hoc)
              (Legal _ _ Hpt) eq_refl) as [Hreq _].
  unfold requested in *. rewrite Hreq. unfold chain_url, join.
  cbn [String.concat app list_append str_bool].
  destruct skipAdjusted; strings; reflexivity.
Qed.

End Aggregator.

(** *** The constructor and [__str__] *)

(** A client made by [__init__] sends its requests to the sandbox host
    when [dev] is set and to the production host otherwise, through a
    session that holds the four credentials it was given. *)
Theorem init_host_and_session
        (session_get : OAuth1Session -> list string -> string
                       -> Result Response)
        (xmltodict_parse : string -> Result PyValue)
        (response_json : Response -> Result PyValue)
        (client_key client_secret resource_owner_key resource_owner_secret
         search_str resp_format : string) (dev : bool) (t : list Event) :
  let me := init client_key client_secret resource_owner_key
                 resource_owner_secret dev in
  let host := if dev then "apisb" else "api" in
  fst (Market.look_up_product session_get xmltodict_parse response_json
         search_str resp_format (mkState me t))
  = fetched
      (session_get
         (mkSession client_key client_secret resource_owner_key
                    resource_owner_secret "AUTH_HEADER")
         (requests t)
         (lookup_url ("https://" ++ host ++ ".etrade.com/v1/market/")
                     search_str resp_format))
      (fun req => if (lower resp_format =? "xml")%string
                  then xmltodict_parse (text req) else response_json req).
Proof.
  intros me host. subst me host. rewrite look_up_product_outcome.
  reflexivity.
Qed.

(** [__str__] shows the environment flag and the base URL and none of
    the credentials: two clients that differ in their keys and secrets
    alone print the same. *)
Theorem str_shows_no_credentials
        (client_key client_secret resource_owner_key resource_owner_secret
         k s rk rs : string) (dev : bool) :
  __str__ (init client_key client_secret resource_owner_key
                resource_owner_secret dev)
  = "Use development environment: " ++ (if dev then "True" else "False")
      ++ newline ++ "base URL: https://" ++ (if dev then "apisb" else "api")
      ++ ".etrade.com/v1/market/"
  /\ __str__ (init client_key client_secret resource_owner_key
                   resource_owner_secret dev)
     = __str__ (init k s rk rs dev).
Proof.
  split; [|reflexivity]. destruct dev; reflexivity.
Qed.

(** *** Answers with a single element, and tuples of symbols *)

Section Defects.

Variable session_get : OAuth1Session -> list string -> string -> Result Response.
Variable xmltodict_parse : string -> Result PyValue.
Variable response_json : Response -> Result PyValue.
Variable int : PyValue -> Result Z.

Local Abbreviation get_quote :=
  (Market.get_quote session_get xmltodict_parse response_json).
Local Abbreviation get_option_expire_date :=
  (Market.get_option_expire_date session_get xmltodict_parse int).
Local Abbreviation get_all_option_chains :=
  (Market.get_all_option_chains session_get xmltodict_parse int).

Lemma get_all_option_chains_dates_raise underlier st e :
  fst (get_option_expire_date underlier st) = Raise e ->
  fst (get_all_option_chains underlier st) = Raise e /\
  requested st (snd (get_all_option_chains underlier st))
            [expire_url (base_url (self st)) underlier].
Proof.
  intros H.
  pose proof (get_option_expire_date_requested session_get xmltodict_parse
                int underlier st) as Hreq.
  unfold Market.get_all_option_chains, bind, try_except, raise.
  destruct (get_option_expire_date underlier st) as [[dates|e'] st1];
    cbn [fst snd] in *; [discriminate|].
  injection H as ->. now split.
Qed.

(** C1 (as the code has it).  The loops of lines 220 and 361 range over
    what the decoder gives for ExpirationDate and OptionPair, and the
    decoder gives a list only for an element that occurs more than once.
    When the expiration-date answer holds one date (a mapping) or none
    (the response element decodes to [None]), [get_all_option_chains]
    raises [TypeError] after the expiration-date request alone; when the
    chain answer of the first date holds one OptionPair (a mapping), it
    raises [TypeError] after that chain request: no mapping is returned. *)
Theorem get_all_option_chains_single_element_raises underlier st :
  let base := base_url (self st) in
  (forall req q r,
     session_get (session (self st)) (requests (trace st))
                 (expire_url base underlier) = Ok req ->
     success req = true ->
     xmltodict_parse (text req) = Ok q ->
     getitem q "OptionExpireDateResponse" = Ok r ->
     (r = PyNone \/
      exists field more, getitem r "ExpirationDate" = Ok (PyDict (field :: more))) ->
     fst (get_all_option_chains underlier st) = Raise TypeError /\
     requested st (snd (get_all_option_chains underlier st))
               [expire_url base underlier]) /\
  (forall st1 d rest req q r field more,
     get_option_expire_date underlier st = (Ok (d :: rest), st1) ->
     session_get (session (self st1)) (requests (trace st1))
                 (chain_url base underlier d) = Ok req ->
     success req = true ->
     xmltodict_parse (text req) = Ok q ->
     getitem q "OptionChainResponse" = Ok r ->
     getitem r "OptionPair" = Ok (PyDict (field :: more)) ->
     fst (get_all_option_chains underlier st) = Raise TypeError /\
     requested st (snd (get_all_option_chains underlier st))
               [expire_url base underlier; chain_url base underlier d]).
Proof.
  intros base. subst base. split.
  - intros req q r Hget Hok Hparse Hr Hshape.
    apply get_all_option_chains_dates_raise.
    rewrite (get_option_expire_date_decoded session_get xmltodict_parse int
               _ _ _ _ Hget Hok Hparse).
    unfold Market.expiration_dates. rewrite Hr. cbn [rbind].
    destruct Hshape as [-> | [[k v] [more Hd]]]; [reflexivity|].
    rewrite Hd. reflexivity.
  - intros st1 d rest req q r field more Hdates Hget Hok Hparse Hr Hpair.
    destruct (get_option_expire_date_ok session_get xmltodict_parse int
                _ _ _ _ Hdates) as [Hself Hreq].
    rewrite <- Hself in Hget.
    destruct (get_option_chains_answered session_get xmltodict_parse underlier
                d st1 req q Hget Hok Hparse) as [st2 [Hrun [_ Hreq2]]].
    rewrite Hself in Hreq2.
    rewrite (get_all_option_chains_run session_get xmltodict_parse int
               _ _ _ _ Hdates).
    rewrite all_chains_loop_cons, Hrun.
    assert (He : chain_entries q = Raise TypeError).
    { unfold chain_entries. rewrite Hr. cbn [rbind]. rewrite Hpair.
      destruct field as [k v]. reflexivity. }
    rewrite He. cbn [fst snd]. split; [reflexivity|].
    exact (requested_trans _ _ _ _ _ Hreq Hreq2).
Qed.

(** C5 (as the code has it).  With more than 25 symbols and arguments
    that pass the other assertions, a list is served as the claim says:
    one request whose URL carries the first 25 symbols, comma-joined in
    their order, and exactly one warning.  The same symbols as a tuple
    are refused: [isinstance(symbols, list or tuple)] tests for [list]
    alone, so the call raises [AssertionError] with nothing requested and
    no warning. *)
Theorem get_quote_tuple_refused_list_served l detail_flag red smoc
        resp_format st args :
  in_enum detail_flag detail_flags = true ->
  quote_args detail_flag red smoc = Ok args ->
  (25 < List.length l)%nat ->
  get_quote (SymTuple l) detail_flag red smoc resp_format st
  = (Raise AssertionError, st) /\
  requested st
    (snd (get_quote (SymList l) detail_flag red smoc resp_format st))
    [quote_url (base_url (self st)) l args resp_format] /\
  List.length (firstn 25 l) = 25%nat /\
  warned st
    (snd (get_quote (SymList l) detail_flag red smoc resp_format st))
    [LogRecord WARNING
       ("get_quote asked for " ++ fmt_d (Z.of_nat (List.length l))
          ++ " requests; only first 25 returned") []].
Proof.
  intros Hflag Hargs Hlen. split; [|split; [|split]].
  - unfold Market.get_quote. rewrite Hflag. reflexivity.
  - exact (proj1 (get_quote_outcome session_get xmltodict_parse response_json
                    l detail_flag red smoc resp_format st args Hflag Hargs)).
  - rewrite length_firstn. lia.
  - assert (E : (25 <? List.length l)%nat = true) by (apply Nat.ltb_lt; lia).
    unfold Market.get_quote. rewrite Hflag, Hargs.
    cbn [isinstance_list_or_tuple items]. rewrite E. exec.
    cases; tidy; reflexivity.
Qed.

End Defects.

(** *** The properties above at work on concrete servers *)

Import Fixture.

Lemma get_option_chains_validates_witness :
  Market.get_option_chains server Fixture.parse "AAPL" None None (PyStr "PUT")
                           PyNone PyNone PyNone PyNone start
  = (Raise AssertionError, start).
Proof.
  apply get_option_chains_validates. left. split; [discriminate|].
  intros s Hin. cbn in Hin.
  repeat (destruct Hin as [<-|Hin]; [discriminate|]). destruct Hin.
Defined.

Lemma no_of_strikes_never_sent_witness :
  exists e,
    Market.get_option_chains server Fixture.parse "AAPL" (Some d1) (Some true)
                             (PyStr "call") (PyFloat f123_4) (PyInt 5)
                             (PyStr "all") (PyStr "atmn") start
    = (Raise e, start).
Proof.
  apply no_of_strikes_never_sent. discriminate.
Defined.

Lemma get_quote_full_query_witness :
  requested start
    (snd (Market.get_quote server Fixture.parse json (SymList ["GOOG"; "AAPL"])
            (PyStr "all") (Some true) (Some false) "json" start))
    [base_url me ++ "quote/" ++ join "," (firstn 25 ["GOOG"; "AAPL"])
       ++ (if (lower "json" =? "json")%string then ".json" else "")
       ++ "?detailflag=" ++ upper "all"
       ++ "&requireEarningsDate=true"
       ++ "&skipMiniOptionsCheck=" ++ "False"].
Proof.
  apply (get_quote_full_query server Fixture.parse json ["GOOG"; "AAPL"] "all"
           false "json" start).
  cbn. tauto.
Defined.

Lemma look_up_product_other_format_is_json_witness :
  Market.look_up_product server Fixture.parse json "goog" "YAML" start
  = Market.look_up_product server Fixture.parse json "goog" "json" start.
Proof.
  apply look_up_product_other_format_is_json. discriminate.
Defined.

Lemma get_quote_other_format_witness :
  fst (Market.get_quote server Fixture.parse json (SymList ["GOOG"]) PyNone
         None None "yaml" start)
  = json (mkResponse 200 "<quotes/>").
Proof.
  destruct (get_quote_other_format server Fixture.parse json ["GOOG"] PyNone
              None None "yaml" start [] eq_refl eq_refl)
    as [_ Decoded]; [discriminate | discriminate |].
  apply Decoded; reflexivity.
Defined.

Lemma failed_request_propagates_witness :
  fst (Market.get_all_option_chains Cases.offline Fixture.parse Fixture.int
         "AAPL" start)
  = Raise (RequestException "connection refused") /\
  fst (Market.get_option_expire_date (Cases.serving 503 "" "") Fixture.parse
         Fixture.int "AAPL" start)
  = Raise (HTTPError 503) /\
  fst (Market.get_option_chains (Cases.serving 503 "" "") Fixture.parse
         "AAPL" (Some d1) (Some true) (PyStr "put") (PyFloat f123_4) PyNone
         (PyStr "mini") (PyStr "all") start)
  = Raise (HTTPError 503).
Proof.
  split; [|split].
  - destruct (failed_request_propagates Cases.offline Fixture.parse json
                Fixture.int start (RequestException "connection refused"))
      as [_ [_ [_ Expire]]].
    apply Expire. left. reflexivity.
  - destruct (failed_request_propagates (Cases.serving 503 "" "")
                Fixture.parse json Fixture.int start (HTTPError 503))
      as [_ [_ [_ Expire]]].
    apply Expire. right. exists (mkResponse 503 ""). repeat split.
  - destruct (failed_request_propagates (Cases.serving 503 "" "")
                Fixture.parse json Fixture.int start (HTTPError 503))
      as [_ [_ [Chains _]]].
    eapply Chains; try reflexivity.
    right. exists (mkResponse 503 ""). repeat split.
Defined.

Lemma get_option_expire_date_parse_failure_witness :
  Market.get_option_expire_date (Cases.serving 200 "<broken" "") Cases.parse
                                Fixture.int "AAPL" start
  = (Raise (ParseError "<broken"),
     mkState me
       [LogRecord DEBUG (expire_url (base_url me) "AAPL") [];
        Request (expire_url (base_url me) "AAPL");
        LogRecord DEBUG "<broken" [];
        LogRecord ERROR ("XML parsing %s text failed" ++ newline ++ "%s")
                  [ArgStr "AAPL"; ArgExc (ParseError "<broken")]]).
Proof.
  apply (proj1 (get_option_expire_date_parse_failure
                  (Cases.serving 200 "<broken" "") Cases.parse Fixture.int
                  "AAPL" start (mkResponse 200 "<broken") eq_refl eq_refl)).
  reflexivity.
Defined.

Lemma get_option_expire_date_in_document_order_witness :
  fst (Market.get_option_expire_date server Fixture.parse Fixture.int "AAPL"
         start)
  = Ok [d1; d2; d3].
Proof.
  apply (get_option_expire_date_in_document_order
           server Fixture.parse Fixture.int "AAPL" start
           (mkResponse 200 "<dates/>") dates_doc
           (PyDict [("ExpirationDate",
                     PyList [date_node "2024" "1" "19";
                             date_node "2024" "2" "16";
                             date_node "2024" "3" "15"])])
           [date_node "2024" "1" "19"; date_node "2024" "2" "16";
            date_node "2024" "3" "15"]);
    try reflexivity.
  - repeat (constructor;
            [do 3 eexists; repeat split; reflexivity|]).
    constructor.
  - repeat constructor.
Defined.

Lemma get_option_expire_date_returns_valid_dates_witness :
  Forall (fun d =>
            valid d = true /\
            String.length (fmt_0d 2 (day d)) = 2%nat /\
            all_digits (fmt_0d 2 (day d)) = true /\
            String.length (fmt_0d 2 (month d)) = 2%nat /\
            all_digits (fmt_0d 2 (month d)) = true /\
            String.length (fmt_0d 4 (year d)) = 4%nat /\
            all_digits (fmt_0d 4 (year d)) = true) [d1; d2; d3].
Proof.
  exact (get_option_expire_date_returns_valid_dates
           server Fixture.parse Fixture.int "AAPL" start _ [d1; d2; d3]
           fixture_dates).
Defined.

Lemma get_option_expire_date_other_documents_witness :
  fst (Market.get_option_expire_date (Cases.serving 200 "<one-date/>" "")
         Cases.parse Fixture.int "AAPL" start)
  = Raise TypeError.
Proof.
  destruct (get_option_expire_date_other_documents
              (Cases.serving 200 "<one-date/>" "") Cases.parse Fixture.int
              "AAPL" start (mkResponse 200 "<one-date/>") Cases.one_date_doc
              eq_refl eq_refl eq_refl) as [_ [_ [Mapping _]]].
  apply (Mapping (PyDict [("ExpirationDate", date_node "2024" "1" "19")])
                 ("year", PyStr "2024")
                 [("month", PyStr "1"); ("day", PyStr "19")]);
    reflexivity.
Defined.

Lemma repeated_dates :
  Market.get_option_expire_date (Cases.serving 200 "<dates-twice/>" "<chains/>")
    Cases.parse Fixture.int "AAPL" start
  = (Ok [d1; d2; d1],
     snd (Market.get_option_expire_date
            (Cases.serving 200 "<dates-twice/>" "<chains/>")
            Cases.parse Fixture.int "AAPL" start)).
Proof. vm_compute. reflexivity. Qed.

Lemma repeated_dates_mapping :
  Market.get_all_option_chains (Cases.serving 200 "<dates-twice/>" "<chains/>")
    Cases.parse Fixture.int "AAPL" start
  = (Ok [(d1, [P1; P2; C1; C2]); (d2, [P1; P2; C1; C2])],
     snd (Market.get_all_option_chains
            (Cases.serving 200 "<dates-twice/>" "<chains/>")
            Cases.parse Fixture.int "AAPL" start)).
Proof. vm_compute. reflexivity. Qed.

Lemma get_all_option_chains_keys_witness :
  NoDup [d1; d2] /\
  (forall d, In d [d1; d2] <-> In d [d1; d2; d1]) /\
  requested start
    (snd (Market.get_all_option_chains
            (Cases.serving 200 "<dates-twice/>" "<chains/>")
            Cases.parse Fixture.int "AAPL" start))
    (expire_url (base_url me) "AAPL"
       :: map (chain_url (base_url me) "AAPL") [d1; d2; d1]).
Proof.
  exact (get_all_option_chains_keys
           (Cases.serving 200 "<dates-twice/>" "<chains/>") Cases.parse
           Fixture.int "AAPL" start _ _ [d1; d2; d1] _
           repeated_dates repeated_dates_mapping).
Defined.

Lemma one_pair_dates :
  Market.get_option_expire_date (Cases.serving 200 "<dates/>" "<one-pair/>")
    Cases.parse Fixture.int "AAPL" start
  = (Ok [d1; d2; d3],
     snd (Market.get_option_expire_date
            (Cases.serving 200 "<dates/>" "<one-pair/>")
            Cases.parse Fixture.int "AAPL" start)).
Proof. vm_compute. reflexivity. Qed.

Lemma single_option_pair_mapping_raises_witness :
  fst (Market.get_all_option_chains
         (Cases.serving 200 "<dates/>" "<one-pair/>") Cases.parse Fixture.int
         "AAPL" start)
  = Raise TypeError.
Proof.
  apply (single_option_pair_mapping_raises
           (Cases.serving 200 "<dates/>" "<one-pair/>") Cases.parse
           Fixture.int "AAPL" start _ d1 [d2; d3]
           (mkResponse 200 "<one-pair/>") Cases.one_pair_doc
           (PyDict [("OptionPair", PyDict [("Call", C1); ("Put", P1)])])
           ("Call", C1) [("Put", P1)] one_pair_dates);
    reflexivity.
Defined.

Lemma get_option_chains_full_url_witness :
  requested start
    (snd (Market.get_option_chains server Fixture.parse "AAPL" (Some d1)
            (Some true) (PyStr "callput") (PyFloat f123_4) PyNone
            (PyStr "standard") (PyStr "atmn") start))
    [chain_url (base_url me) "AAPL" d1
       ++ "&strikePriceNear=" ++ fmt_2f f123_4
       ++ "&chainType=" ++ upper "callput"
       ++ "&optionCategory=" ++ upper "standard"
       ++ "&priceType=" ++ upper "atmn"
       ++ "&skipAdjusted=" ++ "True"].
Proof.
  apply (get_option_chains_full_url server Fixture.parse "AAPL" d1 true
           "callput" f123_4 "standard" "atmn" start); cbn; tauto.
Defined.

Lemma get_all_option_chains_single_element_raises_witness :
  (fst (Market.get_all_option_chains
          (Cases.serving 200 "<one-date/>" "<chains/>") Cases.parse
          Fixture.int "AAPL" start)
   = Raise TypeError /\
   requests (trace (snd (Market.get_all_option_chains
                           (Cases.serving 200 "<one-date/>" "<chains/>")
                           Cases.parse Fixture.int "AAPL" start)))
   = ["https://apisb.etrade.com/v1/market/optionexpiredate?symbol=AAPL&expiryType=ALL"]) /\
  (fst (Market.get_all_option_chains
          (Cases.serving 200 "<dates/>" "<one-pair/>") Cases.parse
          Fixture.int "AAPL" start)
   = Raise TypeError /\
   requests (trace (snd (Market.get_all_option_chains
                           (Cases.serving 200 "<dates/>" "<one-pair/>")
                           Cases.parse Fixture.int "AAPL" start)))
   = ["https://apisb.etrade.com/v1/market/optionexpiredate?symbol=AAPL&expiryType=ALL";
      "https://apisb.etrade.com/v1/market/optionchains?symbol=AAPL&expiryDay=19&expiryMonth=01&expiryYear=2024"]).
Proof.
  split.
  - apply (proj1 (get_all_option_chains_single_element_raises
                    (Cases.serving 200 "<one-date/>" "<chains/>") Cases.parse
                    Fixture.int "AAPL" start)
                 (mkResponse 200 "<one-date/>") Cases.one_date_doc
                 (PyDict [("ExpirationDate", date_node "2024" "1" "19")]));
      try reflexivity.
    right. exists ("year", PyStr "2024"),
                  [("month", PyStr "1"); ("day", PyStr "19")]. reflexivity.
  - apply (proj2 (get_all_option_chains_single_element_raises
                    (Cases.serving 200 "<dates/>" "<one-pair/>") Cases.parse
                    Fixture.int "AAPL" start)
                 _ d1 [d2; d3] (mkResponse 200 "<one-pair/>")
                 Cases.one_pair_doc
                 (PyDict [("OptionPair", PyDict [("Call", C1); ("Put", P1)])])
                 ("Call", C1) [("Put", P1)] one_pair_dates);
      reflexivity.
Defined.

Lemma get_quote_tuple_refused_list_served_witness :
  Market.get_quote server Fixture.parse json (SymTuple (Fixture.symbols 30))
                   (PyStr "all") None None "xml" start
  = (Raise AssertionError, start) /\
  requests (trace (snd (Market.get_quote server Fixture.parse json
                          (SymList (Fixture.symbols 30)) (PyStr "all") None
                          None "xml" start)))
  = ["https://apisb.etrade.com/v1/market/quote/S30,S29,S28,S27,S26,S25,S24,S23,S22,S21,S20,S19,S18,S17,S16,S15,S14,S13,S12,S11,S10,S9,S8,S7,S6?detailflag=ALL"] /\
  List.length (firstn 25 (Fixture.symbols 30)) = 25%nat /\
  warnings (trace (snd (Market.get_quote server Fixture.parse json
                          (SymList (Fixture.symbols 30)) (PyStr "all") None
                          None "xml" start)))
  = [LogRecord WARNING
       "get_quote asked for 30 requests; only first 25 returned" []].
Proof.
  refine (get_quote_tuple_refused_list_served
            server Fixture.parse json (Fixture.symbols 30) (PyStr "all") None
            None "xml" start ["detailflag=ALL"] eq_refl eq_refl _).
  cbn. lia.
Defined.

End Coverage.
